(** * RIPE Atlas probe: binary capture to JSON converter

    A shallow embedding of [convert_binary_tests_to_json.py]: the
    [parse_sockaddr] decoder, the record loop of [convert_binary_file] and
    the library primitives they call ([struct.unpack], [socket.inet_ntoa],
    [socket.inet_ntop], [base64.b64encode], [bytes.hex], [bytes.decode]).

    Python exceptions are explicit: every primitive that can raise returns
    a [result], and the embedded functions thread it through a bind. *)

From Stdlib Require Import ZArith NArith List String Ascii Bool Lia Arith.
From Stdlib Require Import Strings.Byte DecimalString.
From Equations Require Import Equations.
Import ListNotations.

Local Open Scope string_scope.
Local Open Scope Z_scope.

(** ** Exceptions *)

Inductive exn : Type :=
| StructError          (* struct.error: wrong buffer size for the format *)
| OSError              (* socket.inet_ntoa: packed IP wrong length *)
| ValueError           (* socket.inet_ntop: invalid length of packed IP *)
| UnicodeDecodeError.  (* bytes.decode in strict mode *)

Inductive result (A : Type) : Type :=
| Ok (a : A)
| Raise (e : exn).
Arguments Ok {A} a.
Arguments Raise {A} e.

Definition bind {A B : Type} (m : result A) (k : A -> result B) : result B :=
  match m with
  | Ok a => k a
  | Raise e => Raise e
  end.

Notation "x <- m ;; k" := (bind m (fun x => k))
  (at level 61, m at next level, right associativity).

(** ** Bytes objects *)

Definition bytes := list byte.

Definition byte_val (b : byte) : Z := Z.of_N (Byte.to_N b).

(** [len(data)] as a Python integer. *)
Definition len {A : Type} (l : list A) : Z := Z.of_nat (List.length l).

(** The slice [data[a:b]] for constant bounds [0 <= a <= b]; like Python's,
    it is clipped to the data and never raises. *)
Definition slice {A : Type} (a b : nat) (l : list A) : list A :=
  firstn (b - a) (skipn a l).

(** Value of a byte string read least significant byte first. *)
Fixpoint le_val (bs : bytes) : Z :=
  match bs with
  | [] => 0
  | b :: rest => byte_val b + 256 * le_val rest
  end.

Definition be_val (bs : bytes) : Z := le_val (rev bs).

(** [struct.unpack('<H', bs)[0]], ['>H'] and ['<I']: the buffer must have
    exactly the size of the format. *)
Definition unpack_le (n : nat) (bs : bytes) : result Z :=
  if Nat.eqb (List.length bs) n then Ok (le_val bs) else Raise StructError.

Definition unpack_be (n : nat) (bs : bytes) : result Z :=
  if Nat.eqb (List.length bs) n then Ok (be_val bs) else Raise StructError.

(** ** Text forms of numbers *)

Definition dec (z : Z) : string := NilZero.string_of_uint (N.to_uint (Z.to_N z)).

Definition hex_digit (z : Z) : ascii :=
  nth (Z.to_nat z) (list_ascii_of_string "0123456789abcdef") "0"%char.

(** C's [%x]: lower-case hexadecimal without leading zeros. *)
Fixpoint hex_digits (fuel : nat) (z : Z) (acc : string) : string :=
  match fuel with
  | O => acc
  | S fuel' =>
      let acc' := String (hex_digit (z mod 16)) acc in
      if z / 16 =? 0 then acc' else hex_digits fuel' (z / 16) acc'
  end.

Definition hex_word (z : Z) : string := hex_digits 4 z "".

(** [bytes.hex()]: two lower-case digits per byte. *)
Fixpoint hex (bs : bytes) : string :=
  match bs with
  | [] => ""
  | b :: rest =>
      String (hex_digit (byte_val b / 16))
        (String (hex_digit (byte_val b mod 16)) (hex rest))
  end.

(** ** The socket module *)

(** [socket.inet_ntoa]: dotted-decimal text of exactly four bytes. *)
Definition inet_ntoa (packed : bytes) : result string :=
  match packed with
  | [a; b; c; d] =>
      Ok (dec (byte_val a) ++ "." ++ dec (byte_val b) ++ "."
          ++ dec (byte_val c) ++ "." ++ dec (byte_val d))
  | _ => Raise OSError
  end.

(** [socket.inet_ntop(AF_INET6, packed)] is the C library's routine: it
    reads eight big-endian 16-bit words, replaces the first longest run of
    at least two zero words by [::], and writes an IPv4-compatible or
    IPv4-mapped address with a dotted-decimal tail. *)
Fixpoint words16 (bs : bytes) : list Z :=
  match bs with
  | hi :: lo :: rest => (256 * byte_val hi + byte_val lo) :: words16 rest
  | _ => []
  end.

Record zero_run : Type := { run_base : nat; run_len : nat }.

Definition better (best : option zero_run) (cur : zero_run) : option zero_run :=
  match best with
  | None => Some cur
  | Some b => if Nat.ltb (run_len b) (run_len cur) then Some cur else best
  end.

Fixpoint scan_runs (ws : list Z) (i : nat) (best cur : option zero_run)
  : option zero_run :=
  match ws with
  | [] => match cur with Some c => better best c | None => best end
  | w :: ws' =>
      if w =? 0 then
        scan_runs ws' (S i) best
          (match cur with
           | None => Some {| run_base := i; run_len := 1 |}
           | Some c => Some {| run_base := run_base c; run_len := S (run_len c) |}
           end)
      else
        scan_runs ws' (S i)
          (match cur with Some c => better best c | None => best end) None
  end.

Definition best_run (ws : list Z) : option zero_run :=
  match scan_runs ws 0 None None with
  | Some b => if Nat.ltb (run_len b) 2 then None else Some b
  | None => None
  end.

Definition in_run (best : option zero_run) (i : nat) : bool :=
  match best with
  | Some b => Nat.leb (run_base b) i && Nat.ltb i (run_base b + run_len b)
  | None => false
  end.

Definition encapsulated_ipv4 (best : option zero_run) (ws : list Z) : bool :=
  match best with
  | Some b =>
      Nat.eqb (run_base b) 0
      && (Nat.eqb (run_len b) 6
          || (Nat.eqb (run_len b) 5 && (nth 5 ws 0 =? 65535)))
  | None => false
  end.

Fixpoint emit_words (all rest : list Z) (i : nat) (best : option zero_run)
  (tail4 : string) : string :=
  match rest with
  | [] => ""
  | w :: rest' =>
      if in_run best i then
        (if Nat.eqb i (match best with Some b => run_base b | None => 0%nat end)
         then ":" else "") ++ emit_words all rest' (S i) best tail4
      else
        (if Nat.eqb i 0 then "" else ":")
        ++ (if Nat.eqb i 6 && encapsulated_ipv4 best all then tail4
            else hex_word w ++ emit_words all rest' (S i) best tail4)
  end.

Definition inet_ntop6 (packed : bytes) : result string :=
  if Nat.eqb (List.length packed) 16 then
    let ws := words16 packed in
    let best := best_run ws in
    tail4 <- inet_ntoa (skipn 12 packed) ;;
    Ok (emit_words ws ws 0 best tail4
        ++ (match best with
            | Some b => if Nat.eqb (run_base b + run_len b) 8 then ":" else ""
            | None => ""
            end))
  else Raise ValueError.

(** ** Address family constants *)

Definition AF_INET : Z := 2.
Definition AF_INET6 : Z := 10.
Definition AF_INET6_LOCAL : Z := 28.

(** ** parse_sockaddr *)

(** The dictionary [parse_sockaddr] returns.  ["address"] is always a key,
    with value [None] for the blank address; ["flowinfo"] and ["scope_id"]
    are keys of the IPv6 form only, [scope_id] only when it was read. *)
Record SockAddr : Type := {
  sa_family : string;
  sa_address : option string;
  sa_port : Z;
  sa_flowinfo : option Z;
  sa_scope_id : option Z
}.

(** A block that either returns from the function or falls through. *)
Inductive flow (A : Type) : Type :=
| Return (a : A)
| Fallthrough.
Arguments Return {A} a.
Arguments Fallthrough {A}.

(** Lines 46-55: the port of the family-0 heuristic. *)
Definition heuristic_port (data : bytes) : result Z :=
  port_be <- unpack_be 2 (slice 6 8 data) ;;
  port_le <- unpack_le 2 (slice 6 8 data) ;;
  Ok (if port_be =? 80 then port_be
      else if port_le =? 80 then port_le
      else port_le).

(** Lines 43-74: the family-0 block. *)
Definition parse_family0 (data : bytes) (family : Z)
  : result (flow (option SockAddr)) :=
  if (family =? 0) && (len data >=? 8) then
    port <- heuristic_port data ;;
    let addr_bytes := slice 8 12 data in
    match inet_ntoa addr_bytes with
    | Ok addr_str =>
        if String.eqb addr_str "0.0.0.0" then
          Ok (Return (Some {| sa_family := "AF_INET"; sa_address := None;
                              sa_port := port; sa_flowinfo := None;
                              sa_scope_id := None |}))
        else
          Ok (Return (Some {| sa_family := "AF_INET";
                              sa_address := Some addr_str;
                              sa_port := port; sa_flowinfo := None;
                              sa_scope_id := None |}))
    | Raise _ => Ok Fallthrough      (* except: pass *)
    end
  else Ok Fallthrough.

(** Lines 76-112: dispatch on the family. *)
Definition parse_by_family (data : bytes) (family : Z)
  : result (option SockAddr) :=
  if family =? AF_INET then
    if len data <? 8 then Ok None
    else
      port <- unpack_le 2 (slice 2 4 data) ;;
      let addr_bytes := slice 4 8 data in
      addr_str <- inet_ntoa addr_bytes ;;
      Ok (Some {| sa_family := "AF_INET"; sa_address := Some addr_str;
                  sa_port := port; sa_flowinfo := None;
                  sa_scope_id := None |})
  else if (family =? AF_INET6) || (family =? AF_INET6_LOCAL) then
    if len data <? 24 then Ok None
    else
      port <- unpack_le 2 (slice 2 4 data) ;;
      flowinfo <- unpack_le 4 (slice 4 8 data) ;;
      let addr_bytes := slice 8 24 data in
      addr_str <- inet_ntop6 addr_bytes ;;
      if len data >=? 28 then
        scope_id <- unpack_le 4 (slice 24 28 data) ;;
        Ok (Some {| sa_family := "AF_INET6"; sa_address := Some addr_str;
                    sa_port := port; sa_flowinfo := Some flowinfo;
                    sa_scope_id := Some scope_id |})
      else
        Ok (Some {| sa_family := "AF_INET6"; sa_address := Some addr_str;
                    sa_port := port; sa_flowinfo := Some flowinfo;
                    sa_scope_id := None |})
  else Ok None.

Definition parse_sockaddr (data : bytes) (family : Z)
  : result (option SockAddr) :=
  first <- parse_family0 data family ;;
  match first with
  | Return r => Ok r
  | Fallthrough => parse_by_family data family
  end.

(** ** base64.b64encode *)

Definition b64_alphabet : list ascii :=
  list_ascii_of_string
    "ABCDEFGHIJKLMNOPQRSTUVWXYZabcdefghijklmnopqrstuvwxyz0123456789+/".

Definition b64_char (z : Z) : ascii := nth (Z.to_nat z) b64_alphabet "="%char.

(** [base64.b64encode(bs).decode('ascii')]: three bytes make four digits of
    six bits, the last group is padded with [=].  The output is ASCII, so
    the [decode('ascii')] that follows it in the source cannot raise. *)
Fixpoint b64encode (bs : bytes) : string :=
  match bs with
  | [] => ""
  | [a] =>
      let n := byte_val a * 65536 in
      String (b64_char (n / 262144))
        (String (b64_char (n / 4096 mod 64)) "==")
  | [a; b] =>
      let n := byte_val a * 65536 + byte_val b * 256 in
      String (b64_char (n / 262144))
        (String (b64_char (n / 4096 mod 64))
           (String (b64_char (n / 64 mod 64)) "="))
  | a :: b :: c :: rest =>
      let n := byte_val a * 65536 + byte_val b * 256 + byte_val c in
      String (b64_char (n / 262144))
        (String (b64_char (n / 4096 mod 64))
           (String (b64_char (n / 64 mod 64))
              (String (b64_char (n mod 64)) (b64encode rest))))
  end.

(** The inverse, used to state that an encoding loses nothing: a strict
    decoder of the padded standard alphabet. *)
Fixpoint index_of (c : ascii) (l : list ascii) (i : Z) : option Z :=
  match l with
  | [] => None
  | x :: l' => if Ascii.eqb c x then Some i else index_of c l' (i + 1)
  end.

Definition b64_index (c : ascii) : option Z := index_of c b64_alphabet 0.

Definition byte_of_Z (z : Z) : byte :=
  match Byte.of_N (Z.to_N z) with
  | Some b => b
  | None => x00
  end.

Definition omap2 {A B C : Type} (f : A -> B -> option C)
  (x : option A) (y : option B) : option C :=
  match x, y with
  | Some a, Some b => f a b
  | _, _ => None
  end.

Fixpoint b64decode (s : string) : option bytes :=
  match s with
  | "" => Some []
  | String c1 (String c2 (String c3 (String c4 rest))) =>
      if Ascii.eqb c4 "="%char then
        match rest with
        | "" =>
            if Ascii.eqb c3 "="%char then
              omap2 (fun i1 i2 => Some [byte_of_Z (i1 * 4 + i2 / 16)])
                (b64_index c1) (b64_index c2)
            else
              omap2 (fun i12 i3 =>
                       let n := i12 * 64 + i3 in
                       Some [byte_of_Z (n / 1024); byte_of_Z (n / 4 mod 256)])
                (omap2 (fun i1 i2 => Some (i1 * 64 + i2))
                   (b64_index c1) (b64_index c2))
                (b64_index c3)
        | _ => None
        end
      else
        omap2 (fun n tl =>
                 Some (byte_of_Z (n / 65536) :: byte_of_Z (n / 256 mod 256)
                       :: byte_of_Z (n mod 256) :: tl))
          (omap2 (fun i12 i34 => Some (i12 * 4096 + i34))
             (omap2 (fun i1 i2 => Some (i1 * 64 + i2))
                (b64_index c1) (b64_index c2))
             (omap2 (fun i3 i4 => Some (i3 * 64 + i4))
                (b64_index c3) (b64_index c4)))
          (b64decode rest)
  | _ => None
  end.

(** ** bytes.decode('utf-8', errors=...) *)

(** The codec's [errors] argument: [strict] raises at the first malformed
    sequence, [ignore] drops the malformed bytes and goes on. *)
Inductive error_mode : Type := Strict | Ignore.

(** What the decoder finds at one position: a code point encoded by [n]
    bytes, or a malformed range of [n] bytes handed to the error handler. *)
Inductive utf8_step : Type :=
| Decoded (cp : Z) (n : nat)
| Invalid (n : nat).

Definition is_continuation (b : Z) : bool := (128 <=? b) && (b <? 192).

(** CPython's UTF-8 decoder at a lead byte [ch] followed by [rest]. *)
Definition utf8_at (ch : Z) (rest : bytes) : utf8_step :=
  if ch <? 128 then Decoded ch 1
  else if ch <? 224 then
    if ch <? 194 then Invalid 1
    else
      match rest with
      | [] => Invalid 1
      | b2 :: _ =>
          let ch2 := byte_val b2 in
          if negb (is_continuation ch2) then Invalid 1
          else Decoded (ch * 64 + ch2 - 12416) 2
      end
  else if ch <? 240 then
    match rest with
    | [] => Invalid 1
    | [b2] =>
        let ch2 := byte_val b2 in
        if negb (is_continuation ch2)
           || (if ch2 <? 160 then ch =? 224 else ch =? 237)
        then Invalid 1 else Invalid 2
    | b2 :: b3 :: _ =>
        let ch2 := byte_val b2 in
        let ch3 := byte_val b3 in
        if negb (is_continuation ch2) then Invalid 1
        else if (ch =? 224) && (ch2 <? 160) then Invalid 1
        else if (ch =? 237) && (ch2 >=? 160) then Invalid 1
        else if negb (is_continuation ch3) then Invalid 2
        else Decoded (ch * 4096 + ch2 * 64 + ch3 - 925824) 3
    end
  else if ch <? 245 then
    match rest with
    | [] => Invalid 1
    | [b2] =>
        let ch2 := byte_val b2 in
        if negb (is_continuation ch2)
           || (if ch2 <? 144 then ch =? 240 else ch =? 244)
        then Invalid 1 else Invalid 2
    | [b2; b3] =>
        let ch2 := byte_val b2 in
        let ch3 := byte_val b3 in
        if negb (is_continuation ch2)
           || (if ch2 <? 144 then ch =? 240 else ch =? 244)
        then Invalid 1
        else if negb (is_continuation ch3) then Invalid 2
        else Invalid 3
    | b2 :: b3 :: b4 :: _ =>
        let ch2 := byte_val b2 in
        let ch3 := byte_val b3 in
        let ch4 := byte_val b4 in
        if negb (is_continuation ch2) then Invalid 1
        else if (ch =? 240) && (ch2 <? 144) then Invalid 1
        else if (ch =? 244) && (ch2 >=? 144) then Invalid 1
        else if negb (is_continuation ch3) then Invalid 2
        else if negb (is_continuation ch4) then Invalid 3
        else Decoded (ch * 262144 + ch2 * 4096 + ch3 * 64 + ch4 - 63447168) 4
    end
  else Invalid 1.

(** The text is the list of its code points. *)
Equations? utf8_decode (errors : error_mode) (s : bytes) : result (list Z)
  by wf (List.length s) lt :=
utf8_decode errors [] := Ok [];
utf8_decode errors (b :: rest) with utf8_at (byte_val b) rest := {
  | Decoded cp n =>
      text <- utf8_decode errors (skipn (Nat.pred n) rest) ;; Ok (cp :: text)
  | Invalid n with errors := {
    | Strict => Raise UnicodeDecodeError
    | Ignore => utf8_decode Ignore (skipn (Nat.pred n) rest) } }.
Proof.
  all: simpl; rewrite length_skipn; lia.
Qed.

(** ** Response type constants *)

Definition RESP_PACKET : Z := 1.
Definition RESP_SOCKNAME : Z := 2.
Definition RESP_DSTADDR : Z := 3.
Definition RESP_PEERNAME : Z := 4.
Definition RESP_READ_ERROR : Z := 4.
Definition RESP_DATA : Z := 7.
Definition RESP_TIMEOUT : Z := 9.

(** ** convert_binary_file *)

(** The value stored under ["data"], one constructor per dictionary shape
    the source builds (keys in the order the source writes them). *)
Inductive ResponseData : Type :=
| SockaddrData (sockaddr_data : SockAddr)
| RawSockaddr (raw_base64 raw_hex : string)
| PacketData (size : Z) (base64 hex : string)
| TextData (text : list Z) (size : Z) (base64 : string)
| BinaryData (base64 hex : string) (size : Z)
| TimeoutMarker (timeout : bool)
| ErrorMarker (error : bool).

Record Response : Type := {
  resp_type : Z;
  resp_size : Z;
  resp_data : ResponseData
}.

(** Lines 141-188: the dictionary built for one record.  A dictionary
    returned by [parse_sockaddr] is never empty, so [if sockaddr_data:]
    tests it against [None]. *)
Definition decode_response (resp_type resp_size : Z) (resp_data : bytes)
  : result Response :=
  data <-
    (if existsb (Z.eqb resp_type) [RESP_DSTADDR; RESP_SOCKNAME; RESP_PEERNAME]
        && (resp_size >=? 6) then
       family <- unpack_le 2 (slice 4 6 resp_data) ;;
       sockaddr_data <- parse_sockaddr (skipn 4 resp_data) family ;;
       match sockaddr_data with
       | Some sa => Ok (SockaddrData sa)
       | None => Ok (RawSockaddr (b64encode resp_data) (hex resp_data))
       end
     else if resp_type =? RESP_PACKET then
       Ok (PacketData resp_size (b64encode resp_data)
             (if resp_size <=? 100 then hex resp_data
              else hex (firstn 100 resp_data) ++ "..."))
     else if resp_type =? RESP_DATA then
       match utf8_decode Ignore resp_data with
       | Ok text_data => Ok (TextData text_data resp_size (b64encode resp_data))
       | Raise _ =>
           Ok (BinaryData (b64encode resp_data)
                 (if resp_size <=? 100 then hex resp_data
                  else hex (firstn 100 resp_data) ++ "...")
                 resp_size)
       end
     else if resp_type =? RESP_TIMEOUT then Ok (TimeoutMarker true)
     else if resp_type =? RESP_READ_ERROR then Ok (ErrorMarker true)
     else
       Ok (BinaryData (b64encode resp_data)
             (if resp_size <=? 100 then hex resp_data
              else hex (firstn 100 resp_data) ++ "...")
             resp_size)) ;;
  Ok {| resp_type := resp_type; resp_size := resp_size; resp_data := data |}.

(** [f.read(n)] on the unread rest of the file: at most [n] bytes, and the
    rest that remains. *)
Definition read (n : Z) (f : bytes) : bytes * bytes :=
  (firstn (Z.to_nat n) f, skipn (Z.to_nat n) f).

(** One turn of the [while True] loop: [break], or a response appended and
    the file advanced. *)
Inductive iteration : Type :=
| Break
| Append (response : Response) (f : bytes).

(** Lines 120-190. *)
Definition loop_body (f : bytes) : result iteration :=
  let '(type_data, f) := read 4 f in
  if len type_data <? 4 then Ok Break
  else
    resp_type <- unpack_le 4 type_data ;;
    let '(size_data, f) := read 4 f in
    if len size_data <? 4 then Ok Break
    else
      resp_size <- unpack_le 4 size_data ;;
      if resp_size >? 0 then
        let '(resp_data, f) := read resp_size f in
        if len resp_data <? resp_size then Ok Break
        else
          response <- decode_response resp_type resp_size resp_data ;;
          Ok (Append response f)
      else
        response <- decode_response resp_type resp_size [] ;;
        Ok (Append response f).

Definition inspect {A : Type} (a : A) : {b : A | a = b} :=
  exist _ a eq_refl.

(** Every turn that appends a response consumes its header: the loop ends. *)
Lemma loop_body_advances (f : bytes) (response : Response) (f' : bytes) :
  loop_body f = Ok (Append response f') ->
  (List.length f' < List.length f)%nat.
Proof.
  unfold loop_body, read.
  destruct (len (firstn (Z.to_nat 4) f) <? 4) eqn:Htype; [discriminate|].
  destruct (unpack_le 4 (firstn (Z.to_nat 4) f)) as [ty|]; cbn [bind];
    [|discriminate].
  destruct (len (firstn (Z.to_nat 4) (skipn (Z.to_nat 4) f)) <? 4);
    [discriminate|].
  destruct (unpack_le 4 (firstn (Z.to_nat 4) (skipn (Z.to_nat 4) f)))
    as [sz|]; cbn [bind]; [|discriminate].
  apply Z.ltb_ge in Htype. unfold len in Htype.
  rewrite length_firstn in Htype.
  destruct (sz >? 0).
  - destruct (len _ <? sz); [discriminate|].
    destruct (decode_response ty sz _); cbn [bind]; [|discriminate].
    intros H.
    replace f' with (skipn (Z.to_nat sz) (skipn (Z.to_nat 4) (skipn (Z.to_nat 4) f)))
      by congruence.
    rewrite !length_skipn. lia.
  - destruct (decode_response ty sz []); cbn [bind]; [|discriminate].
    intros H.
    replace f' with (skipn (Z.to_nat 4) (skipn (Z.to_nat 4) f)) by congruence.
    rewrite !length_skipn. lia.
Qed.

(** Lines 116-190: the list [responses] when the loop ends. *)
Equations? read_responses (f : bytes) : result (list Response)
  by wf (List.length f) lt :=
read_responses f with inspect (loop_body f) := {
  | exist _ (Raise e) _ => Raise e
  | exist _ (Ok Break) _ => Ok []
  | exist _ (Ok (Append response f')) H =>
      responses <- read_responses f' ;; Ok (response :: responses) }.
Proof.
  exact (loop_body_advances f response f' H).
Qed.

(** Lines 193-198: the document written as JSON. *)
Record Document : Type := {
  version : string;
  source : string;
  original_file : string;
  responses : list Response
}.

(** [contents] is the input file, [basename] its base name. *)
Definition convert_binary_file (basename : string) (contents : bytes)
  : result Document :=
  responses <- read_responses contents ;;
  Ok {| version := "1.0"; source := "converted from binary";
        original_file := basename; responses := responses |}.

(** * The updater of the test scripts

    [update_test_scripts_to_json.py].  A Python [str] is the list of its
    code points; [codes] reads a literal of the source. *)

Definition pystr := list Z.

Definition codes (s : string) : pystr :=
  map (fun c => Z.of_nat (nat_of_ascii c)) (list_ascii_of_string s).

(** [s.startswith(p)]. *)
Fixpoint startswith (p s : pystr) : bool :=
  match p, s with
  | [], _ => true
  | _ :: _, [] => false
  | a :: p', c :: s' => (a =? c) && startswith p' s'
  end.

(** [s.replace(old, new)] for a pattern [old] that is not empty: the
    occurrences of [old] are found from the left, without overlap, and each
    is replaced by [new].  [skip] counts the characters of an occurrence
    still to be passed over. *)
Fixpoint replace_from (old new : pystr) (skip : nat) (s : pystr) : pystr :=
  match s with
  | [] => []
  | c :: s' =>
      match skip with
      | S k => replace_from old new k s'
      | O =>
          if startswith old s
          then (new
                ++ replace_from old new (Nat.pred (List.length old)) s')%list
          else c :: replace_from old new 0 s'
      end
  end.

Definition str_replace (old new s : pystr) : pystr := replace_from old new 0 s.

(** Lines 12-20: the content written back to the file. *)
Definition update_test_file (content : pystr) : pystr :=
  str_replace (codes ".net") (codes ".json") content.


(** * The validator of JSON results

    [validate_json_results.py]: [validate_address_family] and the two
    address checks it calls, with the parsers of the [ipaddress] module
    they rest on.  An [option] stands for a call that may raise
    [AddressValueError] (or the [ValueError] the module turns into it):
    [None] is the exception. *)

(** [s.split(sep)] for a separator of one character. *)
Fixpoint split (sep : Z) (s : pystr) : list pystr :=
  match s with
  | [] => [[]]
  | c :: s' =>
      if c =? sep then [] :: split sep s'
      else match split sep s' with
           | part :: parts => (c :: part) :: parts
           | [] => [[c]]
           end
  end.

(** [s.partition(sep)]: the text before the first separator and, when
    there is one, the text after it. *)
Fixpoint partition (sep : Z) (s : pystr) : pystr * option pystr :=
  match s with
  | [] => ([], None)
  | c :: s' =>
      if c =? sep then ([], Some s')
      else let '(before, after) := partition sep s' in (c :: before, after)
  end.

Definition is_empty {A : Type} (l : list A) : bool :=
  match l with [] => true | _ :: _ => false end.

Definition is_ascii_digit (c : Z) : bool := (48 <=? c) && (c <=? 57).

Definition is_hex_digit (c : Z) : bool :=
  is_ascii_digit c || ((65 <=? c) && (c <=? 70)) || ((97 <=? c) && (c <=? 102)).

Definition hex_digit_value (c : Z) : Z :=
  if is_ascii_digit c then c - 48
  else if c <=? 70 then c - 55
  else c - 87.

(** [int(s, base)] on digits already checked. *)
Fixpoint int_of_digits (base : Z) (value : Z -> Z) (acc : Z) (s : pystr) : Z :=
  match s with
  | [] => acc
  | c :: s' => int_of_digits base value (base * acc + value c) s'
  end.

Definition pystr_eqb (a b : pystr) : bool :=
  if list_eq_dec Z.eq_dec a b then true else false.

(** [_BaseV4._parse_octet]. *)
Definition parse_octet (octet_str : pystr) : option Z :=
  if is_empty octet_str then None
  else if negb (forallb is_ascii_digit octet_str) then None
  else if len octet_str >? 3 then None
  else if negb (pystr_eqb octet_str (codes "0")) && (hd 0 octet_str =? 48)
  then None
  else
    let octet_int := int_of_digits 10 (fun c => c - 48) 0 octet_str in
    if octet_int >? 255 then None else Some octet_int.

(** [_BaseV4._ip_int_from_string]. *)
Definition v4_ip_int_from_string (ip_str : pystr) : option Z :=
  if is_empty ip_str then None
  else
    let octets := split 46 ip_str in
    if negb (len octets =? 4) then None
    else
      match map parse_octet octets with
      | [Some a; Some b; Some c; Some d] =>
          Some (((a * 256 + b) * 256 + c) * 256 + d)
      | _ => None
      end.

(** [ipaddress.IPv4Address(address)] for a string. *)
Definition IPv4Address (address : pystr) : option Z :=
  if existsb (Z.eqb 47) address then None
  else v4_ip_int_from_string address.

(** Lines 18-24. *)
Definition is_valid_ipv4 (addr : pystr) : bool :=
  match IPv4Address addr with
  | Some _ => true
  | None => false
  end.

(** [_BaseV6._parse_hextet]; [int('', 16)] raises. *)
Definition parse_hextet (hextet_str : pystr) : option Z :=
  if negb (forallb is_hex_digit hextet_str) then None
  else if len hextet_str >? 4 then None
  else if is_empty hextet_str then None
  else Some (int_of_digits 16 hex_digit_value 0 hextet_str).

(** [_BaseV6._split_scope_id]. *)
Definition split_scope_id (ip_str : pystr) : option (pystr * option pystr) :=
  match partition 37 ip_str with
  | (addr, None) => Some (addr, None)
  | (addr, Some scope_id) =>
      if is_empty scope_id || existsb (Z.eqb 37) scope_id then None
      else Some (addr, Some scope_id)
  end.

(** The loop that looks for an empty part between the end points: the
    index of the [::], or the exception when there are two. *)
Definition find_skip_index (parts : list pystr) : option (option nat) :=
  fold_left
    (fun found i =>
       match found with
       | None => None
       | Some skip_index =>
           if is_empty (nth i parts []) then
             match skip_index with
             | Some _ => None
             | None => Some (Some i)
             end
           else Some skip_index
       end)
    (seq 1 (List.length parts - 2)) (Some None).

(** Both loops over the hextets: [ip_int] after them. *)
Fixpoint parse_hextets (acc : Z) (parts : list pystr) : option Z :=
  match parts with
  | [] => Some acc
  | part :: rest =>
      match parse_hextet part with
      | Some h => parse_hextets (acc * 65536 + h) rest
      | None => None
      end
  end.

(** [_BaseV6._ip_int_from_string]. *)
Definition v6_ip_int_from_string (ip_str : pystr) : option Z :=
  if is_empty ip_str then None
  else
    let parts := split 58 ip_str in
    if len parts <? 3 then None
    else
      match
        (if existsb (Z.eqb 46) (last parts [])
         then match IPv4Address (last parts []) with
              | Some ipv4_int =>
                  Some (removelast parts
                        ++ [codes (hex_word (ipv4_int / 65536 mod 65536));
                            codes (hex_word (ipv4_int mod 65536))])%list
              | None => None
              end
         else Some parts)
      with
      | None => None
      | Some parts =>
          if len parts >? 9 then None
          else
            match find_skip_index parts with
            | None => None
            | Some (Some skip_index) =>
                let parts_hi := skip_index in
                let parts_lo := (List.length parts - skip_index - 1)%nat in
                let lead := is_empty (hd [] parts) in
                let parts_hi := if lead then Nat.pred parts_hi else parts_hi in
                if lead && negb (Nat.eqb parts_hi 0) then None
                else
                  let trail := is_empty (last parts []) in
                  let parts_lo :=
                    if trail then Nat.pred parts_lo else parts_lo in
                  if trail && negb (Nat.eqb parts_lo 0) then None
                  else if (8 <? parts_hi + parts_lo + 1)%nat then None
                  else
                    match parse_hextets 0 (firstn parts_hi parts) with
                    | None => None
                    | Some hi =>
                        parse_hextets
                          (hi * 65536 ^ Z.of_nat (8 - (parts_hi + parts_lo)))
                          (skipn (List.length parts - parts_lo) parts)
                    end
            | Some None =>
                if negb (Nat.eqb (List.length parts) 8) then None
                else if is_empty (hd [] parts) then None
                else if is_empty (last parts []) then None
                else parse_hextets 0 parts
            end
      end.

(** [ipaddress.IPv6Address(address)] for a string. *)
Definition IPv6Address (address : pystr) : option Z :=
  if existsb (Z.eqb 47) address then None
  else
    match split_scope_id address with
    | None => None
    | Some (addr_str, _) => v6_ip_int_from_string addr_str
    end.

(** Lines 26-32. *)
Definition is_valid_ipv6 (addr : pystr) : bool :=
  match IPv6Address addr with
  | Some _ => true
  | None => false
  end.

(** [str(af)] for an integer. *)
Definition str_int (z : Z) : pystr :=
  if z <? 0 then (codes "-" ++ codes (dec (- z)))%list else codes (dec z).

(** Lines 34-51.  A string is true in a condition when it is not empty. *)
Definition validate_address_family (af : Z) (dst_addr src_addr : pystr)
  : list pystr :=
  if af =? 4 then
    ((if negb (is_empty dst_addr) && negb (is_valid_ipv4 dst_addr)
      then [codes "af=4 but dst_addr='" ++ dst_addr
            ++ codes "' is not a valid IPv4 address"]
      else [])
     ++ (if negb (is_empty src_addr) && negb (is_valid_ipv4 src_addr)
         then [codes "af=4 but src_addr='" ++ src_addr
               ++ codes "' is not a valid IPv4 address"]
         else []))%list
  else if af =? 6 then
    ((if negb (is_empty dst_addr) && negb (is_valid_ipv6 dst_addr)
      then [codes "af=6 but dst_addr='" ++ dst_addr
            ++ codes "' is not a valid IPv6 address"]
      else [])
     ++ (if negb (is_empty src_addr) && negb (is_valid_ipv6 src_addr)
         then [codes "af=6 but src_addr='" ++ src_addr
               ++ codes "' is not a valid IPv6 address"]
         else []))%list
  else
    [(codes "Invalid address family: af=" ++ str_int af
      ++ codes " (must be 4 or 6)")%list].

(** ** Vocabulary of the statements *)

(** [data[i]] as an integer; the statements use it within the data only. *)
Definition byte_at (data : bytes) (i : nat) : Z := byte_val (nth i data x00).

(** Dotted-decimal text of four octets. *)
Definition dotted (a b c d : Z) : string :=
  dec a ++ "." ++ dec b ++ "." ++ dec c ++ "." ++ dec d.

(** The 16-bit and 32-bit values of the bytes that start at offset [i]. *)
Definition le16_at (data : bytes) (i : nat) : Z :=
  byte_at data i + 256 * byte_at data (i + 1).

Definition be16_at (data : bytes) (i : nat) : Z :=
  256 * byte_at data i + byte_at data (i + 1).

Definition le32_at (data : bytes) (i : nat) : Z :=
  byte_at data i + 256 * byte_at data (i + 1)
  + 65536 * byte_at data (i + 2) + 16777216 * byte_at data (i + 3).

(** The port rule of the family-0 heuristic, on the two candidates. *)
Definition port80_rule (port_be port_le : Z) : Z :=
  if port_be =? 80 then port_be
  else if port_le =? 80 then port_le
  else port_le.

(** Sample inputs: a family-0 address with port 80 written big-endian, the
    same cut before its address bytes, and one with a blank address. *)
Definition family0_http : bytes :=
  [x00; x00; x00; x00; x00; x00; x00; x50; x0a; x00; x00; x01].

Definition family0_cut : bytes :=
  [x00; x00; x00; x00; x00; x00; x00; x50].

Definition family0_blank : bytes :=
  [x00; x00; x00; x00; x00; x00; x50; x00; x00; x00; x00; x00].

(** An IPv4 and an IPv6 socket address as [parse_sockaddr] receives them. *)
Definition inet_example : bytes :=
  [x02; x00; x50; x00; x5d; xb8; xd8; x22].

Definition inet6_example : bytes :=
  [x0a; x00; xbb; x01; x01; x00; x00; x00;
   x20; x01; x0d; xb8; x00; x00; x00; x00;
   x00; x00; x00; x00; x00; x00; x00; x01;
   x02; x00; x00; x00].


Definition payload_inet : bytes :=
  [x10; x00; x00; x00; x02; x00; x50; x00; x5d; xb8; xd8; x22].

(** Bytes of the file taken by a response: its header and its payload. *)
Definition span (r : Response) : Z := 8 + resp_size r.

Definition spans (l : list Response) : Z :=
  fold_right (fun r acc => span r + acc) 0 l.

Definition is_prefix {A : Type} (l1 l2 : list A) : Prop :=
  exists tail, l2 = (l1 ++ tail)%list.

(** A capture file of three records: a peer name, a timeout and a packet of
    two bytes. *)
Definition capture_example : bytes :=
  [x04; x00; x00; x00; x0c; x00; x00; x00;
   x10; x00; x00; x00; x02; x00; x50; x00; x5d; xb8; xd8; x22;
   x09; x00; x00; x00; x00; x00; x00; x00;
   x01; x00; x00; x00; x02; x00; x00; x00; xde; xad].

(** A payload too short for an address, and a record type no branch knows. *)
Definition payload_short : bytes := [x10; x00; x00].

(** Type constants the source declares and no branch of the dispatch
    names. *)
Definition RESP_RESOLVER : Z := 5.
Definition RESP_LENGTH : Z := 6.
Definition RESP_CMSG : Z := 8.
Definition RESP_ADDRINFO : Z := 10.
Definition RESP_ADDRINFO_SA : Z := 11.

(** The header a producer writes, [struct.pack('<I', z)], and a whole
    record: type, size, payload. *)
Definition pack_le32 (z : Z) : bytes :=
  [byte_of_Z (z mod 256); byte_of_Z (z / 256 mod 256);
   byte_of_Z (z / 65536 mod 256); byte_of_Z (z / 16777216 mod 256)].

Definition encode_record (ty : Z) (payload : bytes) : bytes :=
  (pack_le32 ty ++ pack_le32 (len payload) ++ payload)%list.

Fixpoint encode_stream (records : list (Z * bytes)) : bytes :=
  match records with
  | [] => []
  | (ty, payload) :: rest => (encode_record ty payload ++ encode_stream rest)%list
  end.

(** A tail too short to hold a record: no full header, or a payload shorter
    than its header announces. *)
Definition partial_tail (tail : bytes) : Prop :=
  len tail < 8 \/ len tail < 8 + le32_at tail 4.

(** Types and payload lengths that fit the 32-bit header fields. *)
Definition fits_header (record : Z * bytes) : Prop :=
  0 <= fst record < 4294967296 /\ len (snd record) < 4294967296.

(** A response is the decoding of a record. *)
Definition decodes_to (record : Z * bytes) (r : Response) : Prop :=
  decode_response (fst record) (len (snd record)) (snd record) = Ok r.


(** The responses of [capture_example], and the last of them. *)
Definition capture_packet : Response :=
  {| resp_type := 1; resp_size := 2;
     resp_data := PacketData 2 "3q0=" "dead" |}.

Definition capture_responses : list Response :=
  [ {| resp_type := 4; resp_size := 12;
       resp_data :=
         SockaddrData
           {| sa_family := "AF_INET"; sa_address := Some "93.184.216.34";
              sa_port := 80; sa_flowinfo := None; sa_scope_id := None |} |};
    {| resp_type := 9; resp_size := 0; resp_data := TimeoutMarker true |};
    capture_packet ].

(** Unicode scalar values, and bytes of the ASCII range. *)
Definition scalar_value (cp : Z) : Prop :=
  0 <= cp <= 1114111 /\ ~ (55296 <= cp <= 57343).

Definition ascii_byte (b : byte) : Prop := byte_val b < 128.

(** The bytes of the text "GET /", and the euro sign followed by a byte that
    starts no UTF-8 sequence. *)
Definition payload_get : bytes := [x47; x45; x54; x20; x2f].

Definition payload_euro_broken : bytes := [xe2; x82; xac; xff].

(** Characters of a base64 text: the 64 digits and the padding sign. *)
Definition b64_text_char (c : ascii) : Prop :=
  In c b64_alphabet \/ c = "="%char.

(** * Properties *)

(** ** Bytes and slices *)

Lemma byte_val_range (b : byte) : 0 <= byte_val b < 256.
Proof.
  unfold byte_val. pose proof (Byte.to_N_bounded b). lia.
Qed.

Lemma byte_of_Z_val (b : byte) : byte_of_Z (byte_val b) = b.
Proof.
  unfold byte_of_Z, byte_val. rewrite N2Z.id, Byte.of_to_N. reflexivity.
Qed.

Lemma byte_of_Z_eq (z : Z) (b : byte) : z = byte_val b -> byte_of_Z z = b.
Proof.
  intros ->. apply byte_of_Z_val.
Qed.

Lemma slice_nil {A : Type} (a : nat) (l : list A) : slice a a l = [].
Proof.
  unfold slice. rewrite Nat.sub_diag. reflexivity.
Qed.

Lemma skipn_nth {A : Type} (d : A) (l : list A) (a : nat) :
  (a < List.length l)%nat -> skipn a l = nth a l d :: skipn (S a) l.
Proof.
  revert a. induction l as [|x l IH]; intros a Ha; simpl in Ha.
  - lia.
  - destruct a as [|a]; [reflexivity|].
    simpl. apply IH. lia.
Qed.

Lemma slice_cons {A : Type} (d : A) (a b : nat) (l : list A) :
  (a < b)%nat -> (a < List.length l)%nat ->
  slice a b l = nth a l d :: slice (S a) b l.
Proof.
  intros Hab Ha. unfold slice.
  rewrite (skipn_nth d l a Ha).
  replace (b - a)%nat with (S (b - S a)) by lia.
  reflexivity.
Qed.

Lemma slice_length {A : Type} (a b : nat) (l : list A) :
  (b <= List.length l)%nat -> List.length (slice a b l) = (b - a)%nat.
Proof.
  intros Hb. unfold slice. rewrite length_firstn, length_skipn. lia.
Qed.

(** Two and four bytes of a slice, written out. *)
Lemma slice2 (a : nat) (data : bytes) :
  (a + 2 <= List.length data)%nat ->
  slice a (a + 2) data = [nth a data x00; nth (a + 1) data x00].
Proof.
  intros H.
  rewrite (slice_cons x00 a) by lia.
  rewrite (slice_cons x00 (S a)) by lia.
  replace (S (S a)) with (a + 2)%nat by lia.
  rewrite slice_nil. replace (S a) with (a + 1)%nat by lia. reflexivity.
Qed.

Lemma slice4 (a : nat) (data : bytes) :
  (a + 4 <= List.length data)%nat ->
  slice a (a + 4) data
  = [nth a data x00; nth (a + 1) data x00;
     nth (a + 2) data x00; nth (a + 3) data x00].
Proof.
  intros H.
  rewrite (slice_cons x00 a) by lia.
  rewrite (slice_cons x00 (S a)) by lia.
  rewrite (slice_cons x00 (S (S a))) by lia.
  rewrite (slice_cons x00 (S (S (S a)))) by lia.
  replace (S (S (S (S a)))) with (a + 4)%nat by lia.
  rewrite slice_nil.
  replace (S (S (S a))) with (a + 3)%nat by lia.
  replace (S (S a)) with (a + 2)%nat by lia.
  replace (S a) with (a + 1)%nat by lia. reflexivity.
Qed.

(** ** struct.unpack *)

Lemma unpack_le16 (a : nat) (data : bytes) :
  (a + 2 <= List.length data)%nat ->
  unpack_le 2 (slice a (a + 2) data) = Ok (le16_at data a).
Proof.
  intros H. rewrite slice2 by exact H.
  unfold unpack_le, le16_at, byte_at.
  cbn [List.length Nat.eqb le_val]. f_equal. lia.
Qed.

Lemma unpack_be16 (a : nat) (data : bytes) :
  (a + 2 <= List.length data)%nat ->
  unpack_be 2 (slice a (a + 2) data) = Ok (be16_at data a).
Proof.
  intros H. rewrite slice2 by exact H.
  unfold unpack_be, be_val, be16_at, byte_at.
  cbn [List.length Nat.eqb le_val List.rev List.app]. f_equal. lia.
Qed.

Lemma unpack_le32 (a : nat) (data : bytes) :
  (a + 4 <= List.length data)%nat ->
  unpack_le 4 (slice a (a + 4) data) = Ok (le32_at data a).
Proof.
  intros H. rewrite slice4 by exact H.
  unfold unpack_le, le32_at, byte_at.
  cbn [List.length Nat.eqb le_val]. f_equal. lia.
Qed.

Lemma le16_at_range (data : bytes) (a : nat) : 0 <= le16_at data a < 65536.
Proof.
  unfold le16_at, byte_at.
  pose proof (byte_val_range (nth a data x00)).
  pose proof (byte_val_range (nth (a + 1) data x00)). lia.
Qed.

Lemma le32_at_range (data : bytes) (a : nat) :
  0 <= le32_at data a < 4294967296.
Proof.
  unfold le32_at, byte_at.
  pose proof (byte_val_range (nth a data x00)).
  pose proof (byte_val_range (nth (a + 1) data x00)).
  pose proof (byte_val_range (nth (a + 2) data x00)).
  pose proof (byte_val_range (nth (a + 3) data x00)). lia.
Qed.

(** ** The socket module *)

Lemma inet_ntoa_slice (a : nat) (data : bytes) :
  (a + 4 <= List.length data)%nat ->
  inet_ntoa (slice a (a + 4) data)
  = Ok (dotted (byte_at data a) (byte_at data (a + 1))
          (byte_at data (a + 2)) (byte_at data (a + 3))).
Proof.
  intros H. rewrite slice4 by exact H. reflexivity.
Qed.

Lemma inet_ntoa_wrong_length (packed : bytes) :
  List.length packed <> 4%nat -> inet_ntoa packed = Raise OSError.
Proof.
  destruct packed as [|a [|b [|c [|d [|e rest]]]]]; simpl; intros H;
    try reflexivity; lia.
Qed.

Example inet_ntop6_compressed :
  inet_ntop6 [x20; x01; x0d; xb8; x00; x00; x00; x00;
              x00; x01; x00; x00; x00; x00; x00; x01]
  = Ok "2001:db8::1:0:0:1".
Proof. reflexivity. Qed.

Example inet_ntop6_mapped :
  inet_ntop6 [x00; x00; x00; x00; x00; x00; x00; x00;
              x00; x00; xff; xff; x01; x02; x03; x04]
  = Ok "::ffff:1.2.3.4".
Proof. reflexivity. Qed.

Lemma inet_ntop6_total (packed : bytes) :
  List.length packed = 16%nat -> exists text, inet_ntop6 packed = Ok text.
Proof.
  intros H. unfold inet_ntop6. rewrite H. cbn [Nat.eqb].
  assert (Htail : skipn 12 packed = slice 12 (12 + 4) packed).
  { unfold slice. rewrite firstn_all2; [reflexivity|].
    rewrite length_skipn. lia. }
  rewrite Htail, inet_ntoa_slice by lia.
  cbn [bind]. eexists. reflexivity.
Qed.

Lemma append_empty_r (s : string) : s ++ "" = s.
Proof.
  induction s as [|c s IH]; simpl; [reflexivity|]. rewrite IH. reflexivity.
Qed.

(** The text of a byte starts with the digit 0 only for the byte 0. *)
Lemma dec_leading_zero (b : byte) (s s' : string) :
  dec (byte_val b) ++ s = String "0" s' -> b = x00 /\ s = s'.
Proof.
  destruct b; cbv [dec byte_val]; vm_compute NilZero.string_of_uint;
    cbn [String.append]; intros H; try discriminate H.
  injection H as <-. split; reflexivity.
Qed.

Lemma dotted_blank (a b c d : byte) :
  dotted (byte_val a) (byte_val b) (byte_val c) (byte_val d) = "0.0.0.0"
  <-> a = x00 /\ b = x00 /\ c = x00 /\ d = x00.
Proof.
  split.
  - unfold dotted. intros H.
    apply dec_leading_zero in H as [-> H].
    cbn [String.append] in H. injection H as H.
    apply dec_leading_zero in H as [-> H].
    cbn [String.append] in H. injection H as H.
    apply dec_leading_zero in H as [-> H].
    cbn [String.append] in H. injection H as H.
    rewrite <- (append_empty_r (dec (byte_val d))) in H.
    apply dec_leading_zero in H as [-> _]. auto.
  - intros (-> & -> & -> & ->). reflexivity.
Qed.

(** ** Comparisons of Python integers *)

Lemma geb_true (a b : Z) : b <= a -> (a >=? b) = true.
Proof. intros H. rewrite Z.geb_leb. apply Z.leb_le. exact H. Qed.

Lemma geb_false (a b : Z) : a < b -> (a >=? b) = false.
Proof. intros H. rewrite Z.geb_leb. apply Z.leb_gt. exact H. Qed.

Lemma ltb_true (a b : Z) : a < b -> (a <? b) = true.
Proof. apply Z.ltb_lt. Qed.

Lemma ltb_false (a b : Z) : b <= a -> (a <? b) = false.
Proof. apply Z.ltb_ge. Qed.

Lemma len_nat {A : Type} (l : list A) (n : nat) :
  Z.of_nat n <= len l -> (n <= List.length l)%nat.
Proof. unfold len. lia. Qed.

(** ** parse_sockaddr: the family-0 heuristic *)

Lemma heuristic_port_ok (data : bytes) :
  8 <= len data ->
  heuristic_port data = Ok (port80_rule (be16_at data 6) (le16_at data 6)).
Proof.
  intros H. apply (len_nat data 8) in H.
  unfold heuristic_port. change 8%nat with (6 + 2)%nat.
  rewrite unpack_be16, unpack_le16 by exact H. reflexivity.
Qed.

Lemma parse_family0_long (data : bytes) :
  12 <= len data ->
  parse_family0 data 0
  = Ok (Return (Some
      {| sa_family := "AF_INET";
         sa_address :=
           (let text := dotted (byte_at data 8) (byte_at data 9)
                          (byte_at data 10) (byte_at data 11) in
            if String.eqb text "0.0.0.0" then None else Some text);
         sa_port := port80_rule (be16_at data 6) (le16_at data 6);
         sa_flowinfo := None; sa_scope_id := None |})).
Proof.
  intros H. unfold parse_family0.
  rewrite geb_true, heuristic_port_ok by lia. cbn [Z.eqb andb bind].
  change 12%nat with (8 + 4)%nat.
  rewrite inet_ntoa_slice by (apply (len_nat data 12); exact H).
  cbv zeta. cbn [Nat.add].
  destruct (String.eqb _ "0.0.0.0"); reflexivity.
Qed.

Lemma parse_family0_short (data : bytes) :
  len data < 12 -> parse_family0 data 0 = Ok Fallthrough.
Proof.
  intros H. unfold parse_family0. cbn [Z.eqb andb].
  destruct (len data >=? 8) eqn:H8; [|reflexivity].
  rewrite Z.geb_leb in H8. apply Z.leb_le in H8.
  rewrite heuristic_port_ok by exact H8. cbn [bind].
  rewrite inet_ntoa_wrong_length; [reflexivity|].
  unfold slice, len in *. rewrite length_firstn, length_skipn. lia.
Qed.

Lemma parse_family0_other (data : bytes) (family : Z) :
  family <> 0 -> parse_family0 data family = Ok Fallthrough.
Proof.
  intros H. unfold parse_family0.
  destruct (Z.eqb_spec family 0); [contradiction|reflexivity].
Qed.

Lemma blank_slice (data : bytes) :
  12 <= len data ->
  (dotted (byte_at data 8) (byte_at data 9) (byte_at data 10)
     (byte_at data 11) = "0.0.0.0"
   <-> slice 8 12 data = [x00; x00; x00; x00]).
Proof.
  intros H. apply (len_nat data 12) in H.
  change 12%nat with (8 + 4)%nat. rewrite slice4 by exact H.
  cbn [Nat.add]. unfold byte_at. rewrite dotted_blank.
  split.
  - intros (-> & -> & -> & ->). reflexivity.
  - intros [= -> -> -> ->]. auto.
Qed.

(** C2: with family hint 0 and at least 8 bytes, the port is chosen from
    the two bytes at offset 6 read in both byte orders: the big-endian value
    when it is 80, otherwise the little-endian value (also when that one is
    80, and by default).  Every address the heuristic returns carries this
    port, and it returns one as soon as the address bytes are there. *)
Theorem family0_port_choice (data : bytes) :
  8 <= len data ->
  exists port,
    heuristic_port data = Ok port
    /\ (be16_at data 6 = 80 -> port = be16_at data 6)
    /\ (be16_at data 6 <> 80 -> le16_at data 6 = 80 -> port = le16_at data 6)
    /\ (be16_at data 6 <> 80 -> le16_at data 6 <> 80 ->
        port = le16_at data 6)
    /\ (forall r, parse_sockaddr data 0 = Ok (Some r) -> sa_port r = port)
    /\ (12 <= len data ->
        exists r, parse_sockaddr data 0 = Ok (Some r) /\ sa_port r = port).
Proof.
  intros H. exists (port80_rule (be16_at data 6) (le16_at data 6)).
  split; [apply heuristic_port_ok; exact H|].
  unfold port80_rule at 1 2 3.
  repeat split.
  - intros ->. reflexivity.
  - intros Hbe Hle. destruct (Z.eqb_spec (be16_at data 6) 80); [contradiction|].
    rewrite Hle. reflexivity.
  - intros Hbe Hle. destruct (Z.eqb_spec (be16_at data 6) 80); [contradiction|].
    destruct (Z.eqb_spec (le16_at data 6) 80); reflexivity.
  - intros r. unfold parse_sockaddr.
    destruct (Z_lt_le_dec (len data) 12) as [Hs|Hl].
    + rewrite parse_family0_short by exact Hs. cbn [bind]. discriminate.
    + rewrite parse_family0_long by exact Hl. cbn [bind].
      intros [= <-]. reflexivity.
  - intros Hl. unfold parse_sockaddr.
    rewrite parse_family0_long by exact Hl. cbn [bind].
    eexists. split; reflexivity.
Qed.

(** The theorem at port 80 written big-endian. *)
Lemma family0_port_choice_witness :
  8 <= len family0_http
  /\ exists port,
       heuristic_port family0_http = Ok port
       /\ (be16_at family0_http 6 = 80 -> port = be16_at family0_http 6)
       /\ (be16_at family0_http 6 <> 80 -> le16_at family0_http 6 = 80 ->
           port = le16_at family0_http 6)
       /\ (be16_at family0_http 6 <> 80 -> le16_at family0_http 6 <> 80 ->
           port = le16_at family0_http 6)
       /\ (forall r, parse_sockaddr family0_http 0 = Ok (Some r) ->
           sa_port r = port)
       /\ (12 <= len family0_http ->
           exists r, parse_sockaddr family0_http 0 = Ok (Some r)
                     /\ sa_port r = port).
Proof.
  assert (H : 8 <= len family0_http) by (vm_compute; discriminate).
  split; [exact H|]. exact (family0_port_choice family0_http H).
Defined.

(** C6: with family hint 0 and four zero bytes at offset 8, the result still
    has the family and the port, and its address is absent ([None]), not the
    text of the zero address. *)
Theorem family0_blank_address (data : bytes) :
  slice 8 12 data = [x00; x00; x00; x00] ->
  exists r,
    parse_sockaddr data 0 = Ok (Some r)
    /\ sa_address r = None
    /\ sa_address r <> Some "0.0.0.0"
    /\ sa_family r = "AF_INET"
    /\ sa_port r = port80_rule (be16_at data 6) (le16_at data 6).
Proof.
  intros Hz.
  assert (Hl : 12 <= len data).
  { apply (f_equal (@List.length byte)) in Hz. revert Hz.
    unfold slice, len. rewrite length_firstn, length_skipn.
    cbn [List.length]. lia. }
  unfold parse_sockaddr. rewrite parse_family0_long by exact Hl.
  cbn [bind]. eexists. split; [reflexivity|].
  cbn [sa_address sa_family sa_port].
  apply (blank_slice data Hl) in Hz. rewrite Hz.
  repeat split. discriminate.
Qed.

Lemma family0_blank_address_witness :
  slice 8 12 family0_blank = [x00; x00; x00; x00]
  /\ exists r,
       parse_sockaddr family0_blank 0 = Ok (Some r)
       /\ sa_address r = None
       /\ sa_address r <> Some "0.0.0.0"
       /\ sa_family r = "AF_INET"
       /\ sa_port r
          = port80_rule (be16_at family0_blank 6) (le16_at family0_blank 6).
Proof.
  assert (H : slice 8 12 family0_blank = [x00; x00; x00; x00])
    by reflexivity.
  split; [exact H|]. exact (family0_blank_address family0_blank H).
Defined.

(** C8 as stated fails: eight bytes with family hint 0 reach the heuristic,
    but the address slice [data[8:12]] is empty, [inet_ntoa] raises, the
    [except] clause passes and the function returns [None]. *)
Lemma family0_cut_not_decoded :
  ~ (forall data : bytes,
       8 <= len data ->
       exists r, parse_sockaddr data 0 = Ok (Some r)
                 /\ sa_family r = "AF_INET").
Proof.
  intros H. destruct (H family0_cut) as (r & Hr & _).
  - vm_compute. discriminate.
  - vm_compute in Hr. discriminate.
Qed.

(** What the [except] clause does: with 8 to 11 bytes the block is entered,
    the address slice is too short and the function returns [None]. *)
Lemma family0_short_not_decoded (data : bytes) :
  8 <= len data < 12 -> parse_sockaddr data 0 = Ok None.
Proof.
  intros [_ Hs]. unfold parse_sockaddr.
  rewrite parse_family0_short by exact Hs. reflexivity.
Qed.

(** C8, amended: with family hint 0 and at least 12 bytes the heuristic
    returns an IPv4-family address, with [data[8:12]] as its address (absent
    when these bytes are all zero), rather than no decoded value. *)
Theorem family0_decoded (data : bytes) :
  12 <= len data ->
  exists r,
    parse_sockaddr data 0 = Ok (Some r)
    /\ sa_family r = "AF_INET"
    /\ (slice 8 12 data = [x00; x00; x00; x00] -> sa_address r = None)
    /\ (slice 8 12 data <> [x00; x00; x00; x00] ->
        sa_address r = Some (dotted (byte_at data 8) (byte_at data 9)
                               (byte_at data 10) (byte_at data 11)))
    /\ sa_port r = port80_rule (be16_at data 6) (le16_at data 6)
    /\ sa_flowinfo r = None /\ sa_scope_id r = None.
Proof.
  intros Hl. unfold parse_sockaddr. rewrite parse_family0_long by exact Hl.
  cbn [bind]. eexists. split; [reflexivity|].
  cbn [sa_address sa_family sa_port sa_flowinfo sa_scope_id].
  pose proof (blank_slice data Hl) as Hb.
  destruct (String.eqb_spec
              (dotted (byte_at data 8) (byte_at data 9) (byte_at data 10)
                 (byte_at data 11)) "0.0.0.0") as [He|Hne].
  - repeat split. intros Hn. apply Hb in He. contradiction.
  - repeat split. intros Hz. apply Hb in Hz. contradiction.
Qed.

Lemma family0_decoded_witness :
  12 <= len family0_http
  /\ exists r,
       parse_sockaddr family0_http 0 = Ok (Some r)
       /\ sa_family r = "AF_INET"
       /\ sa_address r = Some "10.0.0.1"
       /\ sa_port r = 80.
Proof.
  assert (H : 12 <= len family0_http) by (vm_compute; discriminate).
  split; [exact H|].
  destruct (family0_decoded family0_http H)
    as (r & Hr & Hf & _ & Ha & Hp & _).
  exists r. split; [exact Hr|]. split; [exact Hf|]. split.
  - rewrite Ha; [reflexivity|]. vm_compute. discriminate.
  - rewrite Hp. reflexivity.
Defined.

(** ** parse_sockaddr: the family dispatch *)

(** C4: with family hint 2 (AF_INET), at least 8 bytes give the family
    AF_INET, the port read little-endian from bytes 2 and 3 and the
    dotted-decimal text of bytes 4 to 7; fewer than 8 bytes give no decoded
    value. *)
Theorem parse_sockaddr_inet (data : bytes) :
  (8 <= len data ->
   parse_sockaddr data AF_INET
   = Ok (Some {| sa_family := "AF_INET";
                 sa_address :=
                   Some (dotted (byte_at data 4) (byte_at data 5)
                           (byte_at data 6) (byte_at data 7));
                 sa_port := byte_at data 2 + 256 * byte_at data 3;
                 sa_flowinfo := None; sa_scope_id := None |}))
  /\ (len data < 8 -> parse_sockaddr data AF_INET = Ok None).
Proof.
  unfold parse_sockaddr. rewrite parse_family0_other by discriminate.
  cbn [bind]. unfold parse_by_family. cbn [AF_INET Z.eqb Pos.eqb].
  split; intros H.
  - rewrite ltb_false by exact H.
    apply (len_nat data 8) in H.
    change 4%nat with (2 + 2)%nat at 1. rewrite unpack_le16 by lia.
    change 8%nat with (4 + 4)%nat. rewrite inet_ntoa_slice by exact H.
    reflexivity.
  - rewrite ltb_true by exact H. reflexivity.
Qed.

Lemma parse_sockaddr_inet_witness :
  (8 <= len inet_example
   /\ parse_sockaddr inet_example AF_INET
      = Ok (Some {| sa_family := "AF_INET";
                    sa_address := Some "93.184.216.34";
                    sa_port := 80;
                    sa_flowinfo := None; sa_scope_id := None |}))
  /\ (len (firstn 7 inet_example) < 8
      /\ parse_sockaddr (firstn 7 inet_example) AF_INET = Ok None).
Proof.
  split.
  - assert (H : 8 <= len inet_example) by (vm_compute; discriminate).
    split; [exact H|].
    rewrite (proj1 (parse_sockaddr_inet inet_example) H). reflexivity.
  - assert (H : len (firstn 7 inet_example) < 8) by reflexivity.
    split; [exact H|].
    exact (proj2 (parse_sockaddr_inet (firstn 7 inet_example)) H).
Defined.



Lemma parse_by_family_total (data : bytes) (family : Z) :
  exists r, parse_by_family data family = Ok r.
Proof.
  unfold parse_by_family.
  destruct (family =? AF_INET).
  - destruct (Z.ltb_spec (len data) 8) as [Hs|Hl]; [eexists; reflexivity|].
    apply (len_nat data 8) in Hl.
    change 4%nat with (2 + 2)%nat at 1. rewrite unpack_le16 by lia.
    change 8%nat with (4 + 4)%nat. rewrite inet_ntoa_slice by exact Hl.
    eexists. reflexivity.
  - destruct ((family =? AF_INET6) || (family =? AF_INET6_LOCAL))%bool;
      [|eexists; reflexivity].
    destruct (Z.ltb_spec (len data) 24) as [Hs|Hl]; [eexists; reflexivity|].
    pose proof (len_nat data 24 Hl) as Hn.
    change 4%nat with (2 + 2)%nat at 1. rewrite unpack_le16 by lia.
    change 8%nat with (4 + 4)%nat at 1. rewrite unpack_le32 by lia.
    cbn [bind].
    destruct (inet_ntop6_total (slice 8 24 data)) as [text Ht].
    { rewrite slice_length by exact Hn. reflexivity. }
    rewrite Ht. cbn [bind].
    destruct (Z_lt_le_dec (len data) 28) as [Hs|Hl28].
    + rewrite geb_false by exact Hs. eexists. reflexivity.
    + rewrite geb_true by exact Hl28.
      change 28%nat with (24 + 4)%nat. rewrite unpack_le32
        by (apply (len_nat data 28); exact Hl28).
      eexists. reflexivity.
Qed.

(** [parse_sockaddr] raises on no input. *)
Lemma parse_sockaddr_total (data : bytes) (family : Z) :
  exists r, parse_sockaddr data family = Ok r.
Proof.
  unfold parse_sockaddr.
  destruct (Z.eq_dec family 0) as [->|Hf].
  - destruct (Z_lt_le_dec (len data) 12) as [Hs|Hl].
    + rewrite parse_family0_short by exact Hs. cbn [bind].
      apply parse_by_family_total.
    + rewrite parse_family0_long by exact Hl. cbn [bind].
      eexists. reflexivity.
  - rewrite parse_family0_other by exact Hf. cbn [bind].
    apply parse_by_family_total.
Qed.

(** ** bytes.decode *)

(** The strict codec raises where the permissive one drops bytes. *)
Example utf8_strict_raises :
  utf8_decode Strict [x61; xff; x62] = Raise UnicodeDecodeError
  /\ utf8_decode Ignore [x61; xff; x62] = Ok [97; 98].
Proof. split; reflexivity. Qed.

Example utf8_ignore_drops_truncated_tail :
  utf8_decode Ignore [xe2; x82; xac; xf0; x9f; x98] = Ok [8364].
Proof. reflexivity. Qed.

Lemma utf8_decode_ignore (errors : error_mode) (s : bytes) :
  errors = Ignore -> exists text, utf8_decode errors s = Ok text.
Proof.
  funelim (utf8_decode errors s); intros He.
  - eexists. reflexivity.
  - destruct (H He) as [text Ht]. rewrite Ht. eexists. reflexivity.
  - discriminate He.
  - apply H. reflexivity.
Qed.

(** ** decode_response *)

Lemma address_class_guard (ty size : Z) :
  ty = RESP_SOCKNAME \/ ty = RESP_DSTADDR \/ ty = RESP_PEERNAME ->
  6 <= size ->
  existsb (Z.eqb ty) [RESP_DSTADDR; RESP_SOCKNAME; RESP_PEERNAME]
  && (size >=? 6) = true.
Proof.
  intros Hty Hs. rewrite geb_true by exact Hs.
  destruct Hty as [->|[->| ->]]; reflexivity.
Qed.

(** The address-class branch, once its guard holds. *)
Lemma decode_response_address (ty size : Z) (data : bytes) :
  ty = RESP_SOCKNAME \/ ty = RESP_DSTADDR \/ ty = RESP_PEERNAME ->
  size = len data -> 6 <= size ->
  unpack_le 2 (slice 4 6 data) = Ok (le16_at data 4)
  /\ decode_response ty size data
     = (sockaddr_data <- parse_sockaddr (skipn 4 data) (le16_at data 4) ;;
        Ok {| resp_type := ty; resp_size := size;
              resp_data :=
                match sockaddr_data with
                | Some sa => SockaddrData sa
                | None => RawSockaddr (b64encode data) (hex data)
                end |}).
Proof.
  intros Hty Hlen Hs.
  assert (Hu : unpack_le 2 (slice 4 6 data) = Ok (le16_at data 4)).
  { change 6%nat with (4 + 2)%nat. apply unpack_le16.
    apply (len_nat data 6). lia. }
  split; [exact Hu|].
  unfold decode_response.
  rewrite address_class_guard by assumption.
  rewrite Hu. cbn [bind].
  destruct (parse_sockaddr (skipn 4 data) (le16_at data 4)) as [[sa|]|e];
    reflexivity.
Qed.



(** C10: type code 4 is both the peer-name code and the read-error code.  A
    record of type 4 with at least 6 bytes goes to the address-class branch:
    its data is a decoded address or the raw form, never the read-error
    marker.  With fewer than 6 bytes its data is the marker [error: true]. *)
Theorem type4_overload (size : Z) (data : bytes) :
  size = len data ->
  (6 <= size ->
   exists r,
     decode_response 4 size data = Ok r
     /\ resp_type r = 4 /\ resp_size r = size
     /\ ((exists sa, resp_data r = SockaddrData sa)
         \/ resp_data r = RawSockaddr (b64encode data) (hex data))
     /\ resp_data r <> ErrorMarker true)
  /\ (size < 6 ->
      decode_response 4 size data
      = Ok {| resp_type := 4; resp_size := size;
              resp_data := ErrorMarker true |}).
Proof.
  intros Hlen. split; intros Hs.
  - assert (Hty : 4 = RESP_SOCKNAME \/ 4 = RESP_DSTADDR \/ 4 = RESP_PEERNAME)
      by (right; right; reflexivity).
    destruct (decode_response_address 4 size data Hty Hlen Hs) as [_ Hd].
    destruct (parse_sockaddr_total (skipn 4 data) (le16_at data 4))
      as [decoded Hp].
    rewrite Hd, Hp. cbn [bind]. eexists. split; [reflexivity|].
    cbn [resp_type resp_size resp_data].
    split; [reflexivity|]. split; [reflexivity|].
    destruct decoded as [sa|].
    + split; [left; exists sa; reflexivity|discriminate].
    + split; [right; reflexivity|discriminate].
  - unfold decode_response. rewrite geb_false by exact Hs.
    rewrite andb_false_r. reflexivity.
Qed.

Lemma type4_overload_witness :
  (12 = len payload_inet
   /\ 6 <= 12
   /\ decode_response 4 12 payload_inet
      = Ok {| resp_type := 4; resp_size := 12;
              resp_data :=
                SockaddrData
                  {| sa_family := "AF_INET";
                     sa_address := Some "93.184.216.34"; sa_port := 80;
                     sa_flowinfo := None; sa_scope_id := None |} |})
  /\ (2 = len [xff; xff]
      /\ 2 < 6
      /\ decode_response 4 2 [xff; xff]
         = Ok {| resp_type := 4; resp_size := 2;
                 resp_data := ErrorMarker true |}).
Proof.
  split.
  - assert (Hlen : 12 = len payload_inet) by reflexivity.
    assert (Hs : 6 <= 12) by lia.
    split; [exact Hlen|]. split; [exact Hs|].
    destruct (proj1 (type4_overload 12 payload_inet Hlen) Hs)
      as (r & Hr & _).
    rewrite Hr. vm_compute in Hr. injection Hr as <-. reflexivity.
  - assert (Hlen : 2 = len [xff; xff]) by reflexivity.
    assert (Hs : 2 < 6) by lia.
    split; [exact Hlen|]. split; [exact Hs|].
    exact (proj2 (type4_overload 2 [xff; xff] Hlen) Hs).
Defined.

(** C9: for a generic-data record (type 7) the permissive decode never
    raises, so the data is always the text form, with the size and the
    base64 of the payload; the raw form of the [except] clause is never
    produced. *)
Theorem generic_data_is_text (size : Z) (data : bytes) :
  exists text,
    utf8_decode Ignore data = Ok text
    /\ decode_response RESP_DATA size data
       = Ok {| resp_type := RESP_DATA; resp_size := size;
               resp_data := TextData text size (b64encode data) |}
    /\ (forall r b64 hx size',
          decode_response RESP_DATA size data = Ok r ->
          resp_data r <> BinaryData b64 hx size').
Proof.
  destruct (utf8_decode_ignore Ignore data eq_refl) as [text Ht].
  exists text. split; [exact Ht|].
  assert (Hd : decode_response RESP_DATA size data
               = Ok {| resp_type := RESP_DATA; resp_size := size;
                       resp_data := TextData text size (b64encode data) |}).
  { unfold decode_response.
    change (existsb (Z.eqb RESP_DATA) _) with false.
    cbn [andb]. change (RESP_DATA =? RESP_PACKET) with false.
    change (RESP_DATA =? RESP_DATA) with true. cbv iota.
    rewrite Ht. reflexivity. }
  split; [exact Hd|].
  intros r b64 hx size' Hr. rewrite Hd in Hr. injection Hr as <-.
  discriminate.
Qed.

(** ** base64 and hex *)

Lemma sextet_cases (P : Z -> Prop) :
  (forall n : nat, (n < 64)%nat -> P (Z.of_nat n)) ->
  forall z, 0 <= z < 64 -> P z.
Proof.
  intros H z Hz. rewrite <- (Z2Nat.id z) by lia. apply H. lia.
Qed.

Lemma b64_index_char (z : Z) :
  0 <= z < 64 -> b64_index (b64_char z) = Some z.
Proof.
  revert z. apply sextet_cases. intros n Hn.
  do 64 (destruct n as [|n]; [vm_compute; reflexivity|]). lia.
Qed.

Lemma b64_char_not_pad (z : Z) :
  0 <= z < 64 -> Ascii.eqb (b64_char z) "="%char = false.
Proof.
  revert z. apply sextet_cases. intros n Hn.
  do 64 (destruct n as [|n]; [vm_compute; reflexivity|]). lia.
Qed.

Lemma list_ind3 {A : Type} (P : list A -> Prop) :
  P [] -> (forall a, P [a]) -> (forall a b, P [a; b]) ->
  (forall a b c l, P l -> P (a :: b :: c :: l)) ->
  forall l, P l.
Proof.
  intros H0 H1 H2 H3.
  fix IH 1. intros [|a [|b [|c l]]].
  - exact H0.
  - apply H1.
  - apply H2.
  - apply H3. apply IH.
Qed.

Lemma b64decode_quad (s1 s2 s3 s4 : Z) (rest : string) :
  0 <= s1 < 64 -> 0 <= s2 < 64 -> 0 <= s3 < 64 -> 0 <= s4 < 64 ->
  b64decode (String (b64_char s1) (String (b64_char s2)
               (String (b64_char s3) (String (b64_char s4) rest))))
  = match b64decode rest with
    | Some tl =>
        let n := (s1 * 64 + s2) * 4096 + (s3 * 64 + s4) in
        Some (byte_of_Z (n / 65536) :: byte_of_Z (n / 256 mod 256)
              :: byte_of_Z (n mod 256) :: tl)
    | None => None
    end.
Proof.
  intros H1 H2 H3 H4. cbn [b64decode].
  rewrite (b64_char_not_pad s4 H4).
  rewrite !b64_index_char by assumption.
  cbn [omap2]. destruct (b64decode rest); reflexivity.
Qed.

Lemma b64decode_pad1 (s1 s2 s3 : Z) :
  0 <= s1 < 64 -> 0 <= s2 < 64 -> 0 <= s3 < 64 ->
  b64decode (String (b64_char s1) (String (b64_char s2)
               (String (b64_char s3) "=")))
  = let n := (s1 * 64 + s2) * 64 + s3 in
    Some [byte_of_Z (n / 1024); byte_of_Z (n / 4 mod 256)].
Proof.
  intros H1 H2 H3. cbn [b64decode].
  change (Ascii.eqb "=" "=") with true. cbv iota.
  rewrite (b64_char_not_pad s3 H3).
  rewrite !b64_index_char by assumption. reflexivity.
Qed.

Lemma b64decode_pad2 (s1 s2 : Z) :
  0 <= s1 < 64 -> 0 <= s2 < 64 ->
  b64decode (String (b64_char s1) (String (b64_char s2) "=="))
  = Some [byte_of_Z (s1 * 4 + s2 / 16)].
Proof.
  intros H1 H2. cbn [b64decode].
  change (Ascii.eqb "=" "=") with true. cbv iota.
  rewrite !b64_index_char by assumption. reflexivity.
Qed.

(** Base64 loses nothing: decoding the encoding gives the bytes back. *)
Lemma b64decode_b64encode (bs : bytes) : b64decode (b64encode bs) = Some bs.
Proof.
  induction bs as [|a|a b|a b c rest IH] using list_ind3.
  - reflexivity.
  - cbn [b64encode]. cbv zeta.
    pose proof (byte_val_range a) as Ha.
    rewrite b64decode_pad2
      by (Z.to_euclidean_division_equations; lia).
    f_equal. f_equal. apply byte_of_Z_eq.
    Z.to_euclidean_division_equations. lia.
  - cbn [b64encode]. cbv zeta.
    pose proof (byte_val_range a) as Ha.
    pose proof (byte_val_range b) as Hb.
    rewrite b64decode_pad1
      by (Z.to_euclidean_division_equations; lia).
    cbv zeta. f_equal.
    f_equal; [|f_equal]; apply byte_of_Z_eq;
      Z.to_euclidean_division_equations; lia.
  - cbn [b64encode]. cbv zeta.
    pose proof (byte_val_range a) as Ha.
    pose proof (byte_val_range b) as Hb.
    pose proof (byte_val_range c) as Hc.
    rewrite b64decode_quad
      by (Z.to_euclidean_division_equations; lia).
    rewrite IH. cbv zeta. f_equal.
    f_equal; [|f_equal; [|f_equal]]; apply byte_of_Z_eq;
      Z.to_euclidean_division_equations; lia.
Qed.

Lemma hex_length (bs : bytes) :
  String.length (hex bs) = (2 * List.length bs)%nat.
Proof.
  induction bs as [|b bs IH]; [reflexivity|].
  cbn [hex String.length List.length]. rewrite IH. lia.
Qed.

(** C7: in a packet record (type 1) the base64 field decodes back to the
    whole payload.  A payload of at most 100 bytes has its full hex in the
    hex field, which is also the hex of the decoded base64 field; a longer
    one has the 200 hex digits of its first 100 bytes followed by the
    marker of three dots. *)
Theorem packet_record (size : Z) (data : bytes) :
  size = len data ->
  exists base64 hex_field,
    decode_response RESP_PACKET size data
    = Ok {| resp_type := RESP_PACKET; resp_size := size;
            resp_data := PacketData size base64 hex_field |}
    /\ b64decode base64 = Some data
    /\ (size <= 100 ->
        hex_field = hex data
        /\ option_map hex (b64decode base64) = Some hex_field)
    /\ (100 < size ->
        hex_field = hex (firstn 100 data) ++ "..."
        /\ String.length (hex (firstn 100 data)) = 200%nat).
Proof.
  intros Hlen.
  exists (b64encode data),
    (if size <=? 100 then hex data else hex (firstn 100 data) ++ "...").
  split; [reflexivity|].
  split; [apply b64decode_b64encode|].
  split; intros Hs.
  - rewrite (proj2 (Z.leb_le size 100) Hs).
    split; [reflexivity|]. rewrite b64decode_b64encode. reflexivity.
  - rewrite (proj2 (Z.leb_gt size 100) Hs).
    split; [reflexivity|].
    rewrite hex_length, length_firstn. unfold len in Hlen. lia.
Qed.

Lemma packet_record_witness :
  (3 = len [xde; xad; x01]
   /\ decode_response RESP_PACKET 3 [xde; xad; x01]
      = Ok {| resp_type := 1; resp_size := 3;
              resp_data := PacketData 3 "3q0B" "dead01" |})
  /\ (101 = len (repeat xab 101)
      /\ exists base64,
           decode_response RESP_PACKET 101 (repeat xab 101)
           = Ok {| resp_type := 1; resp_size := 101;
                   resp_data :=
                     PacketData 101 base64
                       (hex (repeat xab 100) ++ "...") |}
           /\ b64decode base64 = Some (repeat xab 101)).
Proof.
  split.
  - assert (Hlen : 3 = len [xde; xad; x01]) by reflexivity.
    split; [exact Hlen|].
    destruct (packet_record 3 [xde; xad; x01] Hlen)
      as (base64 & hex_field & Hr & _).
    rewrite Hr. vm_compute in Hr. injection Hr as <- <-. reflexivity.
  - assert (Hlen : 101 = len (repeat xab 101)) by reflexivity.
    split; [exact Hlen|].
    destruct (packet_record 101 (repeat xab 101) Hlen)
      as (base64 & hex_field & Hr & Hb & _ & Hlong).
    exists base64. split; [|exact Hb].
    rewrite Hr. destruct Hlong as [-> _]; [lia|]. reflexivity.
Defined.

(** ** The record loop *)

Lemma decode_response_total (ty size : Z) (data : bytes) :
  size = len data ->
  exists r,
    decode_response ty size data = Ok r
    /\ resp_type r = ty /\ resp_size r = size.
Proof.
  intros Hlen. unfold decode_response.
  destruct (existsb (Z.eqb ty) [RESP_DSTADDR; RESP_SOCKNAME; RESP_PEERNAME]
            && (size >=? 6)) eqn:Hguard.
  - apply andb_prop in Hguard as [_ Hs].
    rewrite Z.geb_leb in Hs. apply Z.leb_le in Hs.
    change 6%nat with (4 + 2)%nat.
    rewrite unpack_le16 by (apply (len_nat data 6); lia).
    cbn [bind].
    destruct (parse_sockaddr_total (skipn 4 data) (le16_at data 4))
      as [[sa|] Hp]; rewrite Hp; cbn [bind]; eexists; repeat split.
  - destruct (ty =? RESP_PACKET); [eexists; repeat split|].
    destruct (ty =? RESP_DATA).
    + destruct (utf8_decode Ignore data); eexists; repeat split.
    + destruct (ty =? RESP_TIMEOUT); [eexists; repeat split|].
      destruct (ty =? RESP_READ_ERROR); eexists; repeat split.
Qed.

(** The loop body by the bytes that are left: fewer than a header, or fewer
    than the header and the payload it announces, break; otherwise the
    record is decoded and the file advanced past it. *)
Lemma loop_body_eq (f : bytes) :
  loop_body f
  = if len f <? 8 then Ok Break
    else
      let size := le32_at f 4 in
      if len f <? 8 + size then Ok Break
      else
        response <- decode_response (le32_at f 0) size
                      (firstn (Z.to_nat size) (skipn 8 f)) ;;
        Ok (Append response (skipn (Z.to_nat size) (skipn 8 f))).
Proof.
  unfold loop_body, read. change (Z.to_nat 4) with 4%nat.
  destruct (Z.ltb_spec (len (firstn 4 f)) 4) as [H4|H4].
  { rewrite ltb_true; [reflexivity|].
    unfold len in *. rewrite length_firstn in H4. lia. }
  assert (Hf4 : (4 <= List.length f)%nat).
  { unfold len in H4. rewrite length_firstn in H4. lia. }
  change (firstn 4 f) with (slice 0 (0 + 4) f).
  rewrite unpack_le32 by exact Hf4. cbn [bind].
  destruct (Z.ltb_spec (len (firstn 4 (skipn 4 f))) 4) as [H8|H8].
  { rewrite ltb_true; [reflexivity|].
    unfold len in *. rewrite length_firstn, length_skipn in H8. lia. }
  assert (Hf8 : (8 <= List.length f)%nat).
  { unfold len in H8. rewrite length_firstn, length_skipn in H8. lia. }
  rewrite (ltb_false (len f) 8) by (unfold len; lia).
  change (firstn 4 (skipn 4 f)) with (slice 4 (4 + 4) f).
  rewrite unpack_le32 by exact Hf8. cbn [bind]. cbv zeta.
  rewrite skipn_skipn. change (4 + 4)%nat with 8%nat.
  pose proof (le32_at_range f 4) as Hrange.
  destruct (le32_at f 4 >? 0) eqn:Hpos.
  - apply Z.gtb_lt in Hpos.
    destruct (Z.ltb_spec (len (firstn (Z.to_nat (le32_at f 4)) (skipn 8 f)))
                (le32_at f 4)) as [Hp|Hp].
    + rewrite ltb_true; [reflexivity|].
      unfold len in *. rewrite length_firstn, length_skipn in Hp. lia.
    + rewrite ltb_false; [reflexivity|].
      unfold len in *. rewrite length_firstn, length_skipn in Hp. lia.
  - assert (Hz : le32_at f 4 = 0).
    { destruct (Z.gtb_spec (le32_at f 4) 0); [discriminate|lia]. }
    rewrite Hz. rewrite ltb_false by (unfold len; lia).
    reflexivity.
Qed.

Lemma read_responses_eq (f : bytes) :
  read_responses f
  = match loop_body f with
    | Raise e => Raise e
    | Ok Break => Ok []
    | Ok (Append response f') =>
        responses <- read_responses f' ;; Ok (response :: responses)
    end.
Proof.
  funelim (read_responses f);
    match goal with E : loop_body _ = _ |- _ => rewrite E end; reflexivity.
Qed.

(** What a turn of the loop that appends a response has read. *)
Lemma loop_body_append (f : bytes) (response : Response) (f' : bytes) :
  loop_body f = Ok (Append response f') ->
  exists payload,
    f = (firstn 8 f ++ payload ++ f')%list
    /\ 8 <= len f
    /\ resp_type response = le32_at f 0
    /\ resp_size response = le32_at f 4
    /\ resp_size response = len payload
    /\ decode_response (le32_at f 0) (le32_at f 4) payload = Ok response.
Proof.
  rewrite loop_body_eq. cbv zeta.
  destruct (Z.ltb_spec (len f) 8) as [|H8]; [discriminate|].
  destruct (Z.ltb_spec (len f) (8 + le32_at f 4)) as [|Hp]; [discriminate|].
  pose proof (le32_at_range f 4) as Hrange.
  assert (Hlen : le32_at f 4
                 = len (firstn (Z.to_nat (le32_at f 4)) (skipn 8 f))).
  { unfold len in *. rewrite length_firstn, length_skipn. lia. }
  destruct (decode_response_total (le32_at f 0) (le32_at f 4) _ Hlen)
    as (r & Hr & Hty & Hsz).
  rewrite Hr. cbn [bind]. intros H.
  assert (response = r) by congruence. subst r.
  exists (firstn (Z.to_nat (le32_at f 4)) (skipn 8 f)).
  replace f' with (skipn (Z.to_nat (le32_at f 4)) (skipn 8 f)) by congruence.
  rewrite !firstn_skipn.
  repeat split; try assumption. congruence.
Qed.

Lemma loop_body_total (f : bytes) : exists it, loop_body f = Ok it.
Proof.
  rewrite loop_body_eq. cbv zeta.
  destruct (len f <? 8); [eexists; reflexivity|].
  destruct (Z.ltb_spec (len f) (8 + le32_at f 4)) as [|Hp];
    [eexists; reflexivity|].
  pose proof (le32_at_range f 4) as Hrange.
  assert (Hlen : le32_at f 4
                 = len (firstn (Z.to_nat (le32_at f 4)) (skipn 8 f))).
  { unfold len in *. rewrite length_firstn, length_skipn. lia. }
  destruct (decode_response_total (le32_at f 0) (le32_at f 4) _ Hlen)
    as (r & Hr & _).
  rewrite Hr. eexists. reflexivity.
Qed.

Lemma le32_at_app (f ext : bytes) (i : nat) :
  (i + 4 <= List.length f)%nat -> le32_at (f ++ ext)%list i = le32_at f i.
Proof.
  intros H. unfold le32_at, byte_at.
  rewrite !app_nth1 by lia. reflexivity.
Qed.

(** Bytes added after a complete record do not change how it is read. *)
Lemma loop_body_extend (f ext : bytes) (response : Response) (f' : bytes) :
  loop_body f = Ok (Append response f') ->
  loop_body (f ++ ext)%list = Ok (Append response (f' ++ ext)%list).
Proof.
  rewrite !loop_body_eq. cbv zeta.
  destruct (Z.ltb_spec (len f) 8) as [|H8]; [discriminate|].
  destruct (Z.ltb_spec (len f) (8 + le32_at f 4)) as [|Hp]; [discriminate|].
  pose proof (le32_at_range f 4) as Hrange.
  assert (Hn8 : (8 <= List.length f)%nat) by (apply len_nat; exact H8).
  assert (Hnp : (8 + Z.to_nat (le32_at f 4) <= List.length f)%nat)
    by (unfold len in Hp; lia).
  rewrite !le32_at_app by lia.
  rewrite ltb_false by (unfold len in *; rewrite length_app; lia).
  rewrite ltb_false by (unfold len in *; rewrite length_app; lia).
  rewrite skipn_app.
  replace (8 - List.length f)%nat with 0%nat by lia.
  rewrite skipn_O, firstn_app, skipn_app, length_skipn.
  replace (Z.to_nat (le32_at f 4) - (List.length f - 8))%nat
    with 0%nat by lia.
  rewrite skipn_O, firstn_O, app_nil_r.
  destruct (decode_response (le32_at f 0) (le32_at f 4)
              (firstn (Z.to_nat (le32_at f 4)) (skipn 8 f))) as [r|e];
    cbn [bind]; [|discriminate].
  intros H.
  replace f' with (skipn (Z.to_nat (le32_at f 4)) (skipn 8 f)) by congruence.
  replace response with r by congruence. reflexivity.
Qed.

(** The loop never raises, and the responses it returns account for no more
    bytes than the file has. *)
Lemma read_responses_total (f : bytes) :
  exists l, read_responses f = Ok l /\ spans l <= len f.
Proof.
  remember (List.length f) as n eqn:Hn. revert f Hn.
  induction n as [n IH] using lt_wf_ind. intros f ->.
  rewrite read_responses_eq.
  destruct (loop_body_total f) as [[|r f'] Hit]; rewrite Hit.
  - exists []. split; [reflexivity|]. unfold spans, len. cbn [fold_right]. lia.
  - destruct (loop_body_append f r f' Hit)
      as (payload & Hf & H8 & _ & _ & Hpl & _).
    pose proof (loop_body_advances f r f' Hit) as Hlt.
    destruct (IH (List.length f') Hlt f' eq_refl) as (l & Hl & Hsp).
    rewrite Hl. cbn [bind]. exists (r :: l). split; [reflexivity|].
    apply (f_equal (@List.length byte)) in Hf.
    rewrite !length_app, length_firstn in Hf.
    unfold spans in *. cbn [fold_right]. unfold span, len in *. lia.
Qed.

(** The responses of a file are a prefix of those of any file it starts. *)
Lemma read_responses_extend (f ext : bytes) (l l' : list Response) :
  read_responses f = Ok l ->
  read_responses (f ++ ext)%list = Ok l' ->
  is_prefix l l'.
Proof.
  remember (List.length f) as n eqn:Hn. revert f Hn l l'.
  induction n as [n IH] using lt_wf_ind. intros f -> l l'.
  rewrite (read_responses_eq f).
  destruct (loop_body f) as [[|r f']|e] eqn:Hit.
  - intros [= <-] _. exists l'. reflexivity.
  - rewrite (read_responses_eq (f ++ ext)%list).
    rewrite (loop_body_extend f ext r f' Hit).
    pose proof (loop_body_advances f r f' Hit) as Hlt.
    destruct (read_responses f') as [l1|] eqn:H1; cbn [bind];
      [|discriminate].
    destruct (read_responses (f' ++ ext)%list) as [l1'|] eqn:H1'; cbn [bind];
      [|discriminate].
    intros [= <-] [= <-].
    destruct (IH (List.length f') Hlt f' eq_refl l1 l1' H1 H1') as [tail ->].
    exists tail. reflexivity.
  - discriminate.
Qed.

(** C3: reading a file cut at any byte [k] never raises; the responses read
    from the file cut at [k] are a prefix of those read from the file cut at
    any later byte [k']; and every response returned stands for a header and
    a payload that were read in full, so a header or payload cut short is
    not among them. *)
Theorem truncation_gives_prefix (contents : bytes) (k k' : nat) :
  (k <= k')%nat ->
  exists l l',
    read_responses (firstn k contents) = Ok l
    /\ read_responses (firstn k' contents) = Ok l'
    /\ is_prefix l l'
    /\ spans l <= len (firstn k contents).
Proof.
  intros Hk.
  destruct (read_responses_total (firstn k contents)) as (l & Hl & Hsp).
  destruct (read_responses_total (firstn k' contents)) as (l' & Hl' & _).
  exists l, l'. split; [exact Hl|]. split; [exact Hl'|].
  split; [|exact Hsp].
  apply (read_responses_extend (firstn k contents)
           (skipn k (firstn k' contents))); [exact Hl|].
  replace (firstn k contents) with (firstn k (firstn k' contents)).
  - rewrite firstn_skipn. exact Hl'.
  - rewrite firstn_firstn. f_equal. lia.
Qed.

(** The capture of three records cut inside its last payload and whole. *)
Lemma truncation_gives_prefix_witness :
  (37 <= 38)%nat
  /\ exists r1 r2 r3,
       read_responses (firstn 37 capture_example) = Ok [r1; r2]
       /\ read_responses (firstn 38 capture_example) = Ok [r1; r2; r3]
       /\ spans [r1; r2] = 28.
Proof.
  assert (Hk : (37 <= 38)%nat) by lia.
  split; [exact Hk|].
  destruct (truncation_gives_prefix capture_example 37 38 Hk)
    as (l & l' & Hl & Hl' & _ & _).
  vm_compute in Hl. vm_compute in Hl'.
  injection Hl as <-. injection Hl' as <-.
  do 3 eexists. split; [|split]; vm_compute; reflexivity.
Defined.

(** The whole conversion of a file that could be read never raises, and the
    document keeps the responses in the order of the stream. *)
Lemma convert_binary_file_total (basename : string) (contents : bytes) :
  exists l,
    read_responses contents = Ok l
    /\ convert_binary_file basename contents
       = Ok {| version := "1.0"; source := "converted from binary";
               original_file := basename; responses := l |}.
Proof.
  destruct (read_responses_total contents) as (l & Hl & _).
  exists l. split; [exact Hl|].
  unfold convert_binary_file. rewrite Hl. reflexivity.
Qed.

(** * Further properties of the converter *)

(** ** parse_sockaddr on every family *)

Lemma be16_at_range (data : bytes) (a : nat) : 0 <= be16_at data a < 65536.
Proof.
  unfold be16_at, byte_at.
  pose proof (byte_val_range (nth a data x00)).
  pose proof (byte_val_range (nth (a + 1) data x00)). lia.
Qed.

Lemma port80_rule_range (data : bytes) :
  0 <= port80_rule (be16_at data 6) (le16_at data 6) < 65536.
Proof.
  pose proof (be16_at_range data 6). pose proof (le16_at_range data 6).
  unfold port80_rule.
  destruct (be16_at data 6 =? 80); [lia|].
  destruct (le16_at data 6 =? 80); lia.
Qed.

Lemma parse_by_family_inet (data : bytes) :
  8 <= len data ->
  parse_by_family data AF_INET
  = Ok (Some {| sa_family := "AF_INET";
                sa_address :=
                  Some (dotted (byte_at data 4) (byte_at data 5)
                          (byte_at data 6) (byte_at data 7));
                sa_port := le16_at data 2;
                sa_flowinfo := None; sa_scope_id := None |}).
Proof.
  intros H. unfold parse_by_family. cbn [AF_INET Z.eqb Pos.eqb].
  rewrite ltb_false by exact H.
  apply (len_nat data 8) in H.
  change 4%nat with (2 + 2)%nat at 1. rewrite unpack_le16 by lia.
  change 8%nat with (4 + 4)%nat. rewrite inet_ntoa_slice by exact H.
  reflexivity.
Qed.

Lemma parse_by_family_inet6 (data : bytes) (family : Z) :
  family = AF_INET6 \/ family = AF_INET6_LOCAL ->
  24 <= len data ->
  exists text,
    inet_ntop6 (slice 8 24 data) = Ok text
    /\ parse_by_family data family
       = Ok (Some {| sa_family := "AF_INET6"; sa_address := Some text;
                     sa_port := le16_at data 2;
                     sa_flowinfo := Some (le32_at data 4);
                     sa_scope_id :=
                       if len data >=? 28 then Some (le32_at data 24)
                       else None |}).
Proof.
  intros Hf H. unfold parse_by_family.
  replace (family =? AF_INET) with false by (destruct Hf; subst; reflexivity).
  replace ((family =? AF_INET6) || (family =? AF_INET6_LOCAL))%bool
    with true by (destruct Hf; subst; reflexivity).
  rewrite ltb_false by exact H.
  pose proof (len_nat data 24 H) as Hn.
  change 4%nat with (2 + 2)%nat at 1. rewrite unpack_le16 by lia.
  change 8%nat with (4 + 4)%nat at 1. rewrite unpack_le32 by lia.
  cbn [bind].
  destruct (inet_ntop6_total (slice 8 24 data)) as [text Ht].
  { rewrite slice_length by exact Hn. reflexivity. }
  exists text. split; [exact Ht|]. rewrite Ht. cbn [bind].
  destruct (Z_lt_le_dec (len data) 28) as [Hs|Hl].
  - rewrite !geb_false by exact Hs. reflexivity.
  - rewrite !geb_true by exact Hl.
    change 28%nat with (24 + 4)%nat. rewrite unpack_le32
      by (apply (len_nat data 28); exact Hl).
    reflexivity.
Qed.

Lemma parse_by_family_inet6_short (data : bytes) (family : Z) :
  family = AF_INET6 \/ family = AF_INET6_LOCAL ->
  len data < 24 -> parse_by_family data family = Ok None.
Proof.
  intros Hf H. unfold parse_by_family.
  replace (family =? AF_INET) with false by (destruct Hf; subst; reflexivity).
  replace ((family =? AF_INET6) || (family =? AF_INET6_LOCAL))%bool
    with true by (destruct Hf; subst; reflexivity).
  rewrite ltb_true by exact H. reflexivity.
Qed.

Lemma parse_by_family_unknown (data : bytes) (family : Z) :
  family <> AF_INET -> family <> AF_INET6 -> family <> AF_INET6_LOCAL ->
  parse_by_family data family = Ok None.
Proof.
  intros H2 H10 H28. unfold parse_by_family.
  destruct (Z.eqb_spec family AF_INET); [contradiction|].
  destruct (Z.eqb_spec family AF_INET6); [contradiction|].
  destruct (Z.eqb_spec family AF_INET6_LOCAL); [contradiction|].
  reflexivity.
Qed.

(** X1: [parse_sockaddr] raises on no input: whatever the bytes and the
    family, it returns a decoded address or [None]. *)
Theorem parse_sockaddr_never_raises (data : bytes) (family : Z) :
  exists r, parse_sockaddr data family = Ok r.
Proof.
  apply parse_sockaddr_total.
Qed.

(** X2: a family other than 0, 2, 10 and 28 gives no decoded value, whatever
    the bytes. *)
Theorem unknown_family_not_decoded (data : bytes) (family : Z) :
  family <> 0 -> family <> AF_INET ->
  family <> AF_INET6 -> family <> AF_INET6_LOCAL ->
  parse_sockaddr data family = Ok None.
Proof.
  intros H0 H2 H10 H28. unfold parse_sockaddr.
  rewrite parse_family0_other by exact H0. cbn [bind].
  apply parse_by_family_unknown; assumption.
Qed.

Lemma unknown_family_not_decoded_witness :
  7 <> 0 /\ 7 <> AF_INET /\ 7 <> AF_INET6 /\ 7 <> AF_INET6_LOCAL
  /\ parse_sockaddr inet6_example 7 = Ok None.
Proof.
  assert (H0 : 7 <> 0) by discriminate.
  assert (H2 : 7 <> AF_INET) by discriminate.
  assert (H10 : 7 <> AF_INET6) by discriminate.
  assert (H28 : 7 <> AF_INET6_LOCAL) by discriminate.
  repeat (split; [assumption|]).
  exact (unknown_family_not_decoded inet6_example 7 H0 H2 H10 H28).
Defined.

(** X3: with family hint 0, fewer than 12 bytes give no decoded value: below
    8 bytes the heuristic is skipped, from 8 to 11 its address is missing. *)
Theorem family0_needs_12_bytes (data : bytes) :
  len data < 12 -> parse_sockaddr data 0 = Ok None.
Proof.
  intros H. unfold parse_sockaddr.
  rewrite parse_family0_short by exact H. reflexivity.
Qed.

Lemma family0_needs_12_bytes_witness :
  len (firstn 11 family0_http) < 12
  /\ parse_sockaddr (firstn 11 family0_http) 0 = Ok None.
Proof.
  assert (H : len (firstn 11 family0_http) < 12) by reflexivity.
  split; [exact H|].
  exact (family0_needs_12_bytes (firstn 11 family0_http) H).
Defined.

(** X4: with family hint 10 or 28, fewer than 24 bytes give no decoded
    value. *)
Theorem inet6_needs_24_bytes (data : bytes) (family : Z) :
  family = AF_INET6 \/ family = AF_INET6_LOCAL ->
  len data < 24 -> parse_sockaddr data family = Ok None.
Proof.
  intros Hf H. unfold parse_sockaddr.
  rewrite parse_family0_other by (destruct Hf; subst; discriminate).
  cbn [bind]. apply parse_by_family_inet6_short; assumption.
Qed.

Lemma inet6_needs_24_bytes_witness :
  (AF_INET6_LOCAL = AF_INET6 \/ AF_INET6_LOCAL = AF_INET6_LOCAL)
  /\ len (firstn 23 inet6_example) < 24
  /\ parse_sockaddr (firstn 23 inet6_example) AF_INET6_LOCAL = Ok None.
Proof.
  assert (Hf : AF_INET6_LOCAL = AF_INET6 \/ AF_INET6_LOCAL = AF_INET6_LOCAL)
    by (right; reflexivity).
  assert (H : len (firstn 23 inet6_example) < 24) by reflexivity.
  split; [exact Hf|]. split; [exact H|].
  exact (inet6_needs_24_bytes (firstn 23 inet6_example) AF_INET6_LOCAL Hf H).
Defined.

(** X5: every decoded address has one of two shapes.  Either its family is
    AF_INET, it comes from family hint 0 or 2 and it has neither flow info
    nor scope id; or its family is AF_INET6, it comes from family hint 10 or
    28 and it has an address and a flow info.  The port is a 16-bit value,
    the flow info and the scope id are 32-bit values. *)
Theorem decoded_address_shape (data : bytes) (family : Z) (r : SockAddr) :
  parse_sockaddr data family = Ok (Some r) ->
  0 <= sa_port r < 65536
  /\ ((sa_family r = "AF_INET" /\ (family = 0 \/ family = AF_INET)
       /\ sa_flowinfo r = None /\ sa_scope_id r = None)
      \/ (sa_family r = "AF_INET6"
          /\ (family = AF_INET6 \/ family = AF_INET6_LOCAL)
          /\ (exists text, sa_address r = Some text)
          /\ (exists flowinfo,
                sa_flowinfo r = Some flowinfo
                /\ 0 <= flowinfo < 4294967296)
          /\ (forall scope_id,
                sa_scope_id r = Some scope_id ->
                0 <= scope_id < 4294967296))).
Proof.
  unfold parse_sockaddr.
  destruct (Z.eq_dec family 0) as [->|H0].
  { destruct (Z_lt_le_dec (len data) 12) as [Hs|Hl].
    - rewrite parse_family0_short by exact Hs. discriminate.
    - rewrite parse_family0_long by exact Hl. cbn [bind].
      intros [= <-]. cbn [sa_port sa_family sa_flowinfo sa_scope_id].
      split; [apply port80_rule_range|]. left. auto. }
  rewrite parse_family0_other by exact H0. cbn [bind].
  destruct (Z.eq_dec family AF_INET) as [->|H2].
  { destruct (Z_lt_le_dec (len data) 8) as [Hs|Hl].
    - unfold parse_by_family. cbn [AF_INET Z.eqb Pos.eqb].
      rewrite ltb_true by exact Hs. discriminate.
    - rewrite parse_by_family_inet by exact Hl.
      intros [= <-]. cbn [sa_port sa_family sa_flowinfo sa_scope_id].
      split; [apply le16_at_range|]. left. auto. }
  destruct (Z.eq_dec family AF_INET6) as [H10|H10];
    [|destruct (Z.eq_dec family AF_INET6_LOCAL) as [H28|H28]].
  3: { rewrite parse_by_family_unknown by assumption. discriminate. }
  all: assert (Hf : family = AF_INET6 \/ family = AF_INET6_LOCAL) by auto.
  all: destruct (Z_lt_le_dec (len data) 24) as [Hs|Hl];
    [rewrite parse_by_family_inet6_short by assumption; discriminate|].
  all: destruct (parse_by_family_inet6 data family Hf Hl) as (text & _ & ->).
  all: intros [= <-];
    cbn [sa_port sa_family sa_flowinfo sa_scope_id sa_address].
  all: split; [apply le16_at_range|]; right.
  all: split; [reflexivity|]; split; [exact Hf|].
  all: split; [exists text; reflexivity|].
  all: split; [exists (le32_at data 4); split;
                 [reflexivity|apply le32_at_range]|].
  all: intros scope_id; destruct (len data >=? 28); [|discriminate].
  all: intros [= <-]; apply le32_at_range.
Qed.

Lemma decoded_address_shape_witness :
  exists r,
    parse_sockaddr inet6_example AF_INET6 = Ok (Some r)
    /\ 0 <= sa_port r < 65536
    /\ sa_family r = "AF_INET6".
Proof.
  eexists. split; [vm_compute; reflexivity|].
  destruct (decoded_address_shape inet6_example AF_INET6 _ eq_refl)
    as [Hp _].
  split; [exact Hp|reflexivity].
Defined.

(** X6: the family hints 10 (Linux) and 28 (FreeBSD) are decoded alike. *)
Theorem inet6_tags_agree (data : bytes) :
  parse_sockaddr data AF_INET6 = parse_sockaddr data AF_INET6_LOCAL.
Proof.
  unfold parse_sockaddr.
  rewrite !parse_family0_other by discriminate.
  reflexivity.
Qed.

Lemma slice_app {A : Type} (a b : nat) (l ext : list A) :
  (b <= List.length l)%nat -> slice a b (l ++ ext)%list = slice a b l.
Proof.
  intros H. unfold slice.
  rewrite skipn_app, firstn_app, length_skipn.
  replace (b - a - (List.length l - a))%nat with 0%nat by lia.
  rewrite firstn_O, app_nil_r. reflexivity.
Qed.

(** X7: only the first 28 bytes are looked at: bytes that follow them change
    nothing in the result, for any family. *)
Theorem bytes_past_28_ignored (data ext : bytes) (family : Z) :
  28 <= len data ->
  parse_sockaddr (data ++ ext)%list family = parse_sockaddr data family.
Proof.
  intros H.
  assert (Hn : (28 <= List.length data)%nat) by (apply len_nat; exact H).
  assert (He : 28 <= len (data ++ ext)%list)
    by (unfold len in *; rewrite length_app; lia).
  unfold parse_sockaddr, parse_family0, heuristic_port, parse_by_family.
  rewrite !slice_app by lia.
  rewrite !(geb_true (len data)), !(geb_true (len (data ++ ext)%list)) by lia.
  rewrite !(ltb_false (len data)), !(ltb_false (len (data ++ ext)%list))
    by lia.
  reflexivity.
Qed.

Lemma bytes_past_28_ignored_witness :
  28 <= len inet6_example
  /\ parse_sockaddr (inet6_example ++ [xff; xff; xff])%list AF_INET6
     = parse_sockaddr inet6_example AF_INET6.
Proof.
  assert (H : 28 <= len inet6_example) by (vm_compute; discriminate).
  split; [exact H|].
  exact (bytes_past_28_ignored inet6_example [xff; xff; xff] AF_INET6 H).
Defined.

(** X8: with family hint 2 an all-zero address is reported as the text
    0.0.0.0; only the family-0 heuristic turns it into an absent address. *)
Theorem inet_keeps_zero_address (data : bytes) :
  slice 4 8 data = [x00; x00; x00; x00] ->
  exists r,
    parse_sockaddr data AF_INET = Ok (Some r)
    /\ sa_family r = "AF_INET"
    /\ sa_address r = Some "0.0.0.0".
Proof.
  intros Hz.
  assert (Hl : 8 <= len data).
  { apply (f_equal (@List.length byte)) in Hz. revert Hz.
    unfold slice, len. rewrite length_firstn, length_skipn.
    cbn [List.length]. lia. }
  unfold parse_sockaddr. rewrite parse_family0_other by discriminate.
  cbn [bind]. rewrite parse_by_family_inet by exact Hl.
  eexists. split; [reflexivity|]. split; [reflexivity|].
  cbn [sa_address]. f_equal.
  change 8%nat with (4 + 4)%nat in Hz.
  rewrite slice4 in Hz by (apply (len_nat data 8); exact Hl).
  cbn [Nat.add] in Hz. injection Hz as H4 H5 H6 H7.
  unfold byte_at. rewrite H4, H5, H6, H7. reflexivity.
Qed.

Lemma inet_keeps_zero_address_witness :
  slice 4 8 [x02; x00; x50; x00; x00; x00; x00; x00] = [x00; x00; x00; x00]
  /\ exists r,
       parse_sockaddr [x02; x00; x50; x00; x00; x00; x00; x00] AF_INET
       = Ok (Some r)
       /\ sa_family r = "AF_INET"
       /\ sa_address r = Some "0.0.0.0".
Proof.
  assert (H : slice 4 8 [x02; x00; x50; x00; x00; x00; x00; x00]
              = [x00; x00; x00; x00]) by reflexivity.
  split; [exact H|].
  exact (inet_keeps_zero_address [x02; x00; x50; x00; x00; x00; x00; x00] H).
Defined.

(** ** decode_response on every type *)

Lemma Ok_inj {A : Type} (a b : A) : Ok a = Ok b -> a = b.
Proof. intros H. injection H as H. exact H. Qed.

Lemma address_class_spec (ty : Z) :
  existsb (Z.eqb ty) [RESP_DSTADDR; RESP_SOCKNAME; RESP_PEERNAME] = true
  <-> ty = RESP_SOCKNAME \/ ty = RESP_DSTADDR \/ ty = RESP_PEERNAME.
Proof.
  cbn [existsb].
  destruct (Z.eqb_spec ty RESP_DSTADDR), (Z.eqb_spec ty RESP_SOCKNAME),
    (Z.eqb_spec ty RESP_PEERNAME); cbn [orb]; split; intros H; auto;
    try discriminate H.
  destruct H as [H|[H|H]]; contradiction.
Qed.

(** What the data of a response tells about its record: each shape is built
    by one branch only. *)
Lemma decode_response_inv (ty size : Z) (data : bytes) (r : Response) :
  size = len data ->
  decode_response ty size data = Ok r ->
  resp_type r = ty /\ resp_size r = size
  /\ match resp_data r with
     | SockaddrData sa =>
         (ty = RESP_SOCKNAME \/ ty = RESP_DSTADDR \/ ty = RESP_PEERNAME)
         /\ 6 <= size
         /\ parse_sockaddr (skipn 4 data) (le16_at data 4) = Ok (Some sa)
     | RawSockaddr b64 hx =>
         (ty = RESP_SOCKNAME \/ ty = RESP_DSTADDR \/ ty = RESP_PEERNAME)
         /\ 6 <= size
         /\ parse_sockaddr (skipn 4 data) (le16_at data 4) = Ok None
         /\ b64 = b64encode data /\ hx = hex data
     | PacketData s b64 hx =>
         ty = RESP_PACKET /\ s = size /\ b64 = b64encode data
         /\ hx = (if size <=? 100 then hex data
                  else hex (firstn 100 data) ++ "...")
     | TextData text s b64 =>
         ty = RESP_DATA /\ s = size /\ b64 = b64encode data
         /\ utf8_decode Ignore data = Ok text
     | BinaryData b64 hx s =>
         ty <> RESP_PACKET /\ ty <> RESP_DATA /\ ty <> RESP_TIMEOUT
         /\ ty <> RESP_READ_ERROR
         /\ (ty = RESP_SOCKNAME \/ ty = RESP_DSTADDR -> size < 6)
         /\ s = size /\ b64 = b64encode data
         /\ hx = (if size <=? 100 then hex data
                  else hex (firstn 100 data) ++ "...")
     | TimeoutMarker t => ty = RESP_TIMEOUT /\ t = true
     | ErrorMarker e => ty = RESP_READ_ERROR /\ size < 6 /\ e = true
     end.
Proof.
  intros Hlen. unfold decode_response.
  destruct (existsb (Z.eqb ty) [RESP_DSTADDR; RESP_SOCKNAME; RESP_PEERNAME])
    eqn:Hclass.
  - apply address_class_spec in Hclass.
    destruct (Z_lt_le_dec size 6) as [Hs|Hs].
    + rewrite geb_false by exact Hs. cbn [andb].
      destruct Hclass as [->|[->| ->]].
      * cbn [RESP_PACKET RESP_SOCKNAME RESP_DSTADDR RESP_PEERNAME
             RESP_READ_ERROR RESP_DATA RESP_TIMEOUT Z.eqb Pos.eqb bind].
        intros Hr; apply Ok_inj in Hr; subst r.
        cbn [resp_type resp_size resp_data].
        repeat split; try discriminate. intros _. exact Hs.
      * cbn [RESP_PACKET RESP_SOCKNAME RESP_DSTADDR RESP_PEERNAME
             RESP_READ_ERROR RESP_DATA RESP_TIMEOUT Z.eqb Pos.eqb bind].
        intros Hr; apply Ok_inj in Hr; subst r.
        cbn [resp_type resp_size resp_data].
        repeat split; try discriminate. intros _. exact Hs.
      * cbn [RESP_PACKET RESP_SOCKNAME RESP_DSTADDR RESP_PEERNAME
             RESP_READ_ERROR RESP_DATA RESP_TIMEOUT Z.eqb Pos.eqb bind].
        intros Hr; apply Ok_inj in Hr; subst r.
        cbn [resp_type resp_size resp_data].
        repeat split. exact Hs.
    + rewrite geb_true by exact Hs. cbn [andb].
      change 6%nat with (4 + 2)%nat.
      rewrite unpack_le16 by (apply (len_nat data 6); lia).
      cbn [bind].
      destruct (parse_sockaddr_total (skipn 4 data) (le16_at data 4))
        as [[sa|] Hp]; rewrite Hp; cbn [bind]; intros Hr;
        apply Ok_inj in Hr; subst r;
        cbn [resp_type resp_size resp_data]; repeat split; assumption.
  - cbn [andb].
    assert (Hnot : ~ (ty = RESP_SOCKNAME \/ ty = RESP_DSTADDR
                      \/ ty = RESP_PEERNAME)).
    { intros H. apply address_class_spec in H. congruence. }
    destruct (Z.eqb_spec ty RESP_PACKET) as [->|H1].
    { cbn [bind]. intros Hr; apply Ok_inj in Hr; subst r.
      cbn [resp_type resp_size resp_data]. repeat split. }
    destruct (Z.eqb_spec ty RESP_DATA) as [->|H7].
    { destruct (utf8_decode_ignore Ignore data eq_refl) as [text Ht].
      rewrite Ht. cbn [bind]. intros Hr; apply Ok_inj in Hr; subst r.
      cbn [resp_type resp_size resp_data]. repeat split. }
    destruct (Z.eqb_spec ty RESP_TIMEOUT) as [->|H9].
    { cbn [bind]. intros Hr; apply Ok_inj in Hr; subst r.
      cbn [resp_type resp_size resp_data]. repeat split. }
    destruct (Z.eqb_spec ty RESP_READ_ERROR) as [->|H4].
    { exfalso. apply Hnot. right. right. reflexivity. }
    cbn [bind]. intros Hr; apply Ok_inj in Hr; subst r.
    cbn [resp_type resp_size resp_data].
    repeat split; try assumption.
    intros H. exfalso. apply Hnot. destruct H; auto.
Qed.

(** X9: a socket-name or destination-address record (type 2 or 3) with
    fewer than 6 bytes is not decoded as an address: its data is the general
    binary form, base64 and full hex of the payload with the size. *)
Theorem short_address_record_is_binary (ty size : Z) (data : bytes) :
  ty = RESP_SOCKNAME \/ ty = RESP_DSTADDR ->
  size < 6 ->
  decode_response ty size data
  = Ok {| resp_type := ty; resp_size := size;
          resp_data := BinaryData (b64encode data) (hex data) size |}.
Proof.
  intros Hty Hs. unfold decode_response.
  rewrite geb_false by exact Hs. rewrite andb_false_r.
  rewrite (proj2 (Z.leb_le size 100)) by lia.
  destruct Hty as [->| ->]; reflexivity.
Qed.

Lemma short_address_record_is_binary_witness :
  (RESP_SOCKNAME = RESP_SOCKNAME \/ RESP_SOCKNAME = RESP_DSTADDR)
  /\ 3 < 6
  /\ decode_response RESP_SOCKNAME 3 payload_short
     = Ok {| resp_type := 2; resp_size := 3;
             resp_data := BinaryData "EAAA" "100000" 3 |}.
Proof.
  assert (Hty : RESP_SOCKNAME = RESP_SOCKNAME \/ RESP_SOCKNAME = RESP_DSTADDR)
    by (left; reflexivity).
  assert (Hs : 3 < 6) by lia.
  split; [exact Hty|]. split; [exact Hs|].
  rewrite (short_address_record_is_binary RESP_SOCKNAME 3 payload_short
             Hty Hs).
  reflexivity.
Defined.

(** X10: a record of a type no branch names (not 1, 2, 3, 4, 7 or 9) has
    the general binary form: the base64 field decodes back to the whole
    payload, and the hex field is the full hex up to 100 bytes and the 200
    digits of the first 100 bytes followed by three dots beyond. *)
Theorem unknown_type_is_binary (ty size : Z) (data : bytes) :
  ty <> RESP_PACKET -> ty <> RESP_SOCKNAME -> ty <> RESP_DSTADDR ->
  ty <> RESP_PEERNAME -> ty <> RESP_DATA -> ty <> RESP_TIMEOUT ->
  size = len data ->
  exists b64 hx,
    decode_response ty size data
    = Ok {| resp_type := ty; resp_size := size;
            resp_data := BinaryData b64 hx size |}
    /\ b64decode b64 = Some data
    /\ (size <= 100 -> hx = hex data)
    /\ (100 < size ->
        hx = hex (firstn 100 data) ++ "..."
        /\ String.length (hex (firstn 100 data)) = 200%nat).
Proof.
  intros H1 H2 H3 H4 H7 H9 Hlen.
  exists (b64encode data),
    (if size <=? 100 then hex data else hex (firstn 100 data) ++ "...").
  split.
  - unfold decode_response.
    replace (existsb (Z.eqb ty) [RESP_DSTADDR; RESP_SOCKNAME; RESP_PEERNAME])
      with false.
    2: { symmetry. apply not_true_is_false. intros H.
         apply address_class_spec in H.
         destruct H as [H|[H|H]]; contradiction. }
    cbn [andb].
    destruct (Z.eqb_spec ty RESP_PACKET); [contradiction|].
    destruct (Z.eqb_spec ty RESP_DATA); [contradiction|].
    destruct (Z.eqb_spec ty RESP_TIMEOUT); [contradiction|].
    destruct (Z.eqb_spec ty RESP_READ_ERROR); [contradiction|].
    reflexivity.
  - split; [apply b64decode_b64encode|].
    split; intros Hs.
    + rewrite (proj2 (Z.leb_le size 100) Hs). reflexivity.
    + rewrite (proj2 (Z.leb_gt size 100) Hs).
      split; [reflexivity|].
      rewrite hex_length, length_firstn. unfold len in Hlen. lia.
Qed.

Lemma unknown_type_is_binary_witness :
  RESP_ADDRINFO_SA <> RESP_PACKET
  /\ RESP_ADDRINFO_SA <> RESP_SOCKNAME
  /\ RESP_ADDRINFO_SA <> RESP_DSTADDR
  /\ RESP_ADDRINFO_SA <> RESP_PEERNAME
  /\ RESP_ADDRINFO_SA <> RESP_DATA
  /\ RESP_ADDRINFO_SA <> RESP_TIMEOUT
  /\ 3 = len payload_short
  /\ decode_response RESP_ADDRINFO_SA 3 payload_short
     = Ok {| resp_type := 11; resp_size := 3;
             resp_data := BinaryData "EAAA" "100000" 3 |}.
Proof.
  assert (H1 : RESP_ADDRINFO_SA <> RESP_PACKET) by discriminate.
  assert (H2 : RESP_ADDRINFO_SA <> RESP_SOCKNAME) by discriminate.
  assert (H3 : RESP_ADDRINFO_SA <> RESP_DSTADDR) by discriminate.
  assert (H4 : RESP_ADDRINFO_SA <> RESP_PEERNAME) by discriminate.
  assert (H7 : RESP_ADDRINFO_SA <> RESP_DATA) by discriminate.
  assert (H9 : RESP_ADDRINFO_SA <> RESP_TIMEOUT) by discriminate.
  assert (Hlen : 3 = len payload_short) by reflexivity.
  repeat (split; [assumption|]).
  destruct (unknown_type_is_binary RESP_ADDRINFO_SA 3 payload_short
              H1 H2 H3 H4 H7 H9 Hlen) as (b64 & hx & Hr & _).
  rewrite Hr. vm_compute in Hr. apply Ok_inj in Hr.
  injection Hr as <- <-. reflexivity.
Defined.

(** X11: a record whose size field is the length of its payload is always
    decoded without raising, whatever its type, and the response keeps the
    type and the size of the record; a size written inside the data is that
    same size. *)
Theorem response_keeps_type_and_size (ty size : Z) (data : bytes) :
  size = len data ->
  exists r,
    decode_response ty size data = Ok r
    /\ resp_type r = ty /\ resp_size r = size
    /\ match resp_data r with
       | PacketData s _ _ | TextData _ s _ | BinaryData _ _ s => s = size
       | _ => True
       end.
Proof.
  intros Hlen.
  destruct (decode_response_total ty size data Hlen) as (r & Hr & _).
  exists r. split; [exact Hr|].
  destruct (decode_response_inv ty size data r Hlen Hr) as (Ht & Hs & Hd).
  split; [exact Ht|]. split; [exact Hs|].
  destruct (resp_data r); try exact I; tauto.
Qed.

Lemma response_keeps_type_and_size_witness :
  12 = len payload_inet
  /\ exists r,
       decode_response RESP_DATA 12 payload_inet = Ok r
       /\ resp_type r = 7 /\ resp_size r = 12.
Proof.
  assert (Hlen : 12 = len payload_inet) by reflexivity.
  split; [exact Hlen|].
  destruct (response_keeps_type_and_size RESP_DATA 12 payload_inet Hlen)
    as (r & Hr & Ht & Hs & _).
  exists r. split; [exact Hr|]. split; [exact Ht|exact Hs].
Defined.

(** ** Every response of a file *)

Lemma read_responses_cons (f : bytes) (r : Response) (l : list Response) :
  read_responses f = Ok (r :: l) ->
  exists f', loop_body f = Ok (Append r f') /\ read_responses f' = Ok l.
Proof.
  rewrite read_responses_eq.
  destruct (loop_body f) as [[|r0 f']|e]; try discriminate.
  destruct (read_responses f') as [l0|e] eqn:Hl; cbn [bind];
    [|discriminate].
  intros H. apply Ok_inj in H. exists f'.
  split; congruence.
Qed.

Lemma read_responses_In (f : bytes) (l : list Response) (r : Response) :
  read_responses f = Ok l -> In r l ->
  exists before payload after,
    f = (before ++ payload ++ after)%list
    /\ resp_size r = len payload
    /\ 0 <= resp_type r < 4294967296
    /\ 0 <= resp_size r < 4294967296
    /\ decode_response (resp_type r) (resp_size r) payload = Ok r.
Proof.
  revert f. induction l as [|r0 l IH]; intros f Hf Hin; [contradiction|].
  destruct (read_responses_cons f r0 l Hf) as (f' & Hbody & Hrest).
  destruct (loop_body_append f r0 f' Hbody)
    as (payload & Hsplit & _ & Hty & Hsz & Hpl & Hdec).
  destruct Hin as [<-|Hin].
  - exists (firstn 8 f), payload, f'.
    split; [exact Hsplit|]. split; [exact Hpl|].
    split; [rewrite Hty; apply le32_at_range|].
    split; [rewrite Hsz; apply le32_at_range|].
    rewrite Hty, Hsz. exact Hdec.
  - destruct (IH f' Hrest Hin) as (before & p & after & Hf' & Hrest').
    exists (firstn 8 f ++ payload ++ before)%list, p, after.
    split; [|exact Hrest'].
    rewrite Hsplit at 1. rewrite Hf', <- !app_assoc. reflexivity.
Qed.

(** X12: every response read from a file is the decoding of a payload that
    stands in the file and whose length is the size of the response; its
    type and its size are 32-bit values. *)
Theorem responses_decode_file_payloads
  (f : bytes) (l : list Response) (r : Response) :
  read_responses f = Ok l -> In r l ->
  exists before payload after,
    f = (before ++ payload ++ after)%list
    /\ resp_size r = len payload
    /\ 0 <= resp_type r < 4294967296
    /\ 0 <= resp_size r < 4294967296
    /\ decode_response (resp_type r) (resp_size r) payload = Ok r.
Proof.
  apply read_responses_In.
Qed.

Lemma responses_decode_file_payloads_witness :
  read_responses capture_example = Ok capture_responses
  /\ In capture_packet capture_responses
  /\ exists before payload after,
       capture_example = (before ++ payload ++ after)%list
       /\ resp_size capture_packet = len payload
       /\ 0 <= resp_type capture_packet < 4294967296
       /\ 0 <= resp_size capture_packet < 4294967296
       /\ decode_response (resp_type capture_packet)
            (resp_size capture_packet) payload = Ok capture_packet.
Proof.
  assert (Hl : read_responses capture_example = Ok capture_responses)
    by (vm_compute; reflexivity).
  assert (Hin : In capture_packet capture_responses)
    by (right; right; left; reflexivity).
  split; [exact Hl|]. split; [exact Hin|].
  exact (responses_decode_file_payloads capture_example capture_responses
           capture_packet Hl Hin).
Defined.



(** ** Whole streams *)

Lemma byte_val_of_Z (z : Z) : 0 <= z < 256 -> byte_val (byte_of_Z z) = z.
Proof.
  intros Hz. unfold byte_of_Z, byte_val.
  destruct (Byte.of_N (Z.to_N z)) as [b|] eqn:Hb.
  - apply Byte.to_of_N in Hb. rewrite Hb. lia.
  - apply Byte.of_N_None_iff in Hb. lia.
Qed.

Lemma le32_at_pack (z : Z) (rest : bytes) :
  0 <= z < 4294967296 -> le32_at (pack_le32 z ++ rest)%list 0 = z.
Proof.
  intros Hz. unfold le32_at, byte_at, pack_le32.
  cbn [List.app nth Nat.add].
  rewrite !byte_val_of_Z by (Z.to_euclidean_division_equations; lia).
  Z.to_euclidean_division_equations. lia.
Qed.

Lemma le32_at_skip4 (h0 h1 h2 h3 : byte) (rest : bytes) :
  le32_at (h0 :: h1 :: h2 :: h3 :: rest) 4 = le32_at rest 0.
Proof. reflexivity. Qed.

Lemma len_app {A : Type} (l1 l2 : list A) :
  len (l1 ++ l2)%list = len l1 + len l2.
Proof. unfold len. rewrite length_app. lia. Qed.

(** Reading one whole record, whatever follows it. *)
Lemma loop_body_encode (ty : Z) (payload rest : bytes) :
  0 <= ty < 4294967296 -> len payload < 4294967296 ->
  loop_body (encode_record ty payload ++ rest)%list
  = (r <- decode_response ty (len payload) payload ;; Ok (Append r rest)).
Proof.
  intros Hty Hpl.
  assert (Hp0 : 0 <= len payload) by (unfold len; lia).
  rewrite loop_body_eq. cbv zeta.
  assert (Hlen : len (encode_record ty payload ++ rest)%list
                 = 8 + len payload + len rest).
  { unfold encode_record. rewrite !len_app.
    change (len (pack_le32 ty)) with 4.
    change (len (pack_le32 (len payload))) with 4. lia. }
  assert (Ht : le32_at (encode_record ty payload ++ rest)%list 0 = ty).
  { unfold encode_record. rewrite <- !app_assoc.
    apply le32_at_pack. exact Hty. }
  assert (Hs : le32_at (encode_record ty payload ++ rest)%list 4
               = len payload).
  { unfold encode_record. rewrite <- !app_assoc.
    unfold pack_le32 at 1. cbn [List.app]. rewrite le32_at_skip4.
    apply le32_at_pack. lia. }
  assert (Hskip : skipn 8 (encode_record ty payload ++ rest)%list
                  = (payload ++ rest)%list).
  { unfold encode_record. rewrite <- !app_assoc. reflexivity. }
  rewrite Ht, Hs, Hskip, Hlen.
  assert (Hr0 : 0 <= len rest) by (unfold len; lia).
  rewrite ltb_false by lia. rewrite ltb_false by lia.
  unfold len at 2 3. rewrite Nat2Z.id.
  rewrite firstn_app, Nat.sub_diag, firstn_O, app_nil_r, firstn_all.
  rewrite skipn_app, Nat.sub_diag, skipn_O, skipn_all, app_nil_l.
  reflexivity.
Qed.

Lemma partial_tail_break (tail : bytes) :
  partial_tail tail <-> loop_body tail = Ok Break.
Proof.
  rewrite loop_body_eq. cbv zeta. unfold partial_tail. split.
  - intros [H|H].
    + rewrite ltb_true by exact H. reflexivity.
    + destruct (len tail <? 8); [reflexivity|].
      rewrite ltb_true by exact H. reflexivity.
  - destruct (Z.ltb_spec (len tail) 8) as [H8|H8]; [left; exact H8|].
    destruct (Z.ltb_spec (len tail) (8 + le32_at tail 4)) as [Hp|Hp];
      [right; exact Hp|].
    pose proof (le32_at_range tail 4) as Hrange.
    assert (Hlen : le32_at tail 4
                   = len (firstn (Z.to_nat (le32_at tail 4)) (skipn 8 tail))).
    { unfold len in *. rewrite length_firstn, length_skipn. lia. }
    destruct (decode_response_total (le32_at tail 0) (le32_at tail 4) _ Hlen)
      as (r & Hr & _).
    rewrite Hr. discriminate.
Qed.

(** X14: a file made of whole records, followed by a tail too short to hold
    one, gives one response for each record, in the order of the file, each
    the decoding of its record; the tail gives nothing. *)
Theorem stream_round_trip (records : list (Z * bytes)) (tail : bytes) :
  Forall fits_header records ->
  partial_tail tail ->
  exists l,
    read_responses (encode_stream records ++ tail)%list = Ok l
    /\ Forall2 decodes_to records l.
Proof.
  intros Hfit Htail. induction Hfit as [|[ty payload] records Hrec _ IH].
  - exists []. split; [|constructor].
    cbn [encode_stream List.app]. rewrite read_responses_eq.
    apply partial_tail_break in Htail. rewrite Htail. reflexivity.
  - destruct IH as (l & Hl & Hall).
    destruct Hrec as [Hty Hpl]. cbn [fst snd] in Hty, Hpl.
    destruct (decode_response_total ty (len payload) payload eq_refl)
      as (r & Hr & _).
    exists (r :: l). split; [|constructor; [exact Hr|exact Hall]].
    cbn [encode_stream]. rewrite <- app_assoc.
    rewrite read_responses_eq, loop_body_encode by assumption.
    rewrite Hr. cbn [bind]. rewrite Hl. reflexivity.
Qed.

Lemma stream_round_trip_witness :
  Forall fits_header [(4, payload_inet); (9, []); (1, [xde; xad])]
  /\ partial_tail [x07; x00; x00; x00; x05; x00; x00; x00; x41]
  /\ exists l,
       read_responses
         (encode_stream [(4, payload_inet); (9, []); (1, [xde; xad])]
          ++ [x07; x00; x00; x00; x05; x00; x00; x00; x41])%list = Ok l
       /\ Forall2 decodes_to [(4, payload_inet); (9, []); (1, [xde; xad])] l.
Proof.
  assert (Hfit : Forall fits_header
                   [(4, payload_inet); (9, []); (1, [xde; xad])]).
  { repeat constructor; cbn; try discriminate; reflexivity. }
  assert (Htail : partial_tail
                    [x07; x00; x00; x00; x05; x00; x00; x00; x41]).
  { right. reflexivity. }
  split; [exact Hfit|]. split; [exact Htail|].
  exact (stream_round_trip _ _ Hfit Htail).
Defined.

(** X15: when a file is read to its last byte, reading it followed by a
    second file gives the responses of the first followed by those of the
    second. *)
Theorem concatenated_files (f1 f2 : bytes) (l1 l2 : list Response) :
  read_responses f1 = Ok l1 ->
  spans l1 = len f1 ->
  read_responses f2 = Ok l2 ->
  read_responses (f1 ++ f2)%list = Ok (l1 ++ l2)%list.
Proof.
  intros H1 Hfull H2. revert f1 H1 Hfull.
  induction l1 as [|r l1 IH]; intros f1 H1 Hfull.
  - unfold spans, len in Hfull. cbn [fold_right] in Hfull.
    destruct f1; [|cbn [List.length] in Hfull; lia].
    exact H2.
  - destruct (read_responses_cons f1 r l1 H1) as (f' & Hbody & Hrest).
    destruct (loop_body_append f1 r f' Hbody)
      as (payload & Hsplit & H8 & _ & _ & Hpl & _).
    rewrite read_responses_eq, (loop_body_extend f1 f2 r f' Hbody).
    rewrite (IH f' Hrest); [reflexivity|].
    apply (f_equal (@List.length byte)) in Hsplit.
    rewrite !length_app, length_firstn in Hsplit.
    pose proof (loop_body_advances f1 r f' Hbody) as Hlt.
    unfold spans in *. cbn [fold_right] in Hfull.
    unfold span, len in *. lia.
Qed.

Lemma concatenated_files_witness :
  read_responses capture_example = Ok capture_responses
  /\ spans capture_responses = len capture_example
  /\ read_responses capture_example = Ok capture_responses
  /\ read_responses (capture_example ++ capture_example)%list
     = Ok (capture_responses ++ capture_responses)%list.
Proof.
  assert (Hl : read_responses capture_example = Ok capture_responses)
    by (vm_compute; reflexivity).
  assert (Hfull : spans capture_responses = len capture_example)
    by reflexivity.
  split; [exact Hl|]. split; [exact Hfull|]. split; [exact Hl|].
  exact (concatenated_files capture_example capture_example
           capture_responses capture_responses Hl Hfull Hl).
Defined.

(** X16: a file gives no response at all exactly when it does not start
    with a whole record: it has fewer than 8 bytes, or fewer bytes after the
    header than the size field announces. *)
Theorem no_response_iff_partial (f : bytes) :
  read_responses f = Ok [] <-> partial_tail f.
Proof.
  rewrite partial_tail_break, read_responses_eq.
  destruct (loop_body f) as [[|r f']|e]; split; intros H;
    try reflexivity; try discriminate H.
  destruct (read_responses f'); discriminate H.
Qed.

Lemma spans_lower_bound (l : list Response) :
  Forall (fun r => 0 <= resp_size r) l -> 8 * len l <= spans l.
Proof.
  induction 1 as [|r l Hr _ IH].
  - reflexivity.
  - change (spans (r :: l)) with (span r + spans l).
    unfold span, len in *. cbn [List.length]. lia.
Qed.

(** X17: every response takes at least its 8-byte header from the file, so
    a file of [n] bytes gives at most [n / 8] responses. *)
Theorem responses_bounded_by_length (f : bytes) (l : list Response) :
  read_responses f = Ok l -> 8 * len l <= len f.
Proof.
  intros Hl.
  destruct (read_responses_total f) as (l' & Hl' & Hsp).
  assert (l' = l) by congruence. subst l'.
  apply Z.le_trans with (spans l); [|exact Hsp].
  apply spans_lower_bound. apply Forall_forall. intros r Hin.
  destruct (read_responses_In f l r Hl Hin) as (_ & _ & _ & _ & _ & _ & Hs & _).
  lia.
Qed.

Lemma responses_bounded_by_length_witness :
  read_responses capture_example = Ok capture_responses
  /\ 8 * len capture_responses <= len capture_example.
Proof.
  assert (Hl : read_responses capture_example = Ok capture_responses)
    by (vm_compute; reflexivity).
  split; [exact Hl|].
  exact (responses_bounded_by_length capture_example capture_responses Hl).
Defined.

(** ** The text of a generic-data record *)

Lemma utf8_decode_cons (errors : error_mode) (b : byte) (rest : bytes) :
  utf8_decode errors (b :: rest)
  = match utf8_at (byte_val b) rest with
    | Decoded cp n =>
        text <- utf8_decode errors (skipn (Nat.pred n) rest) ;;
        Ok (cp :: text)
    | Invalid n =>
        match errors with
        | Strict => Raise UnicodeDecodeError
        | Ignore => utf8_decode Ignore (skipn (Nat.pred n) rest)
        end
    end.
Proof.
  simp utf8_decode.
  destruct (utf8_at (byte_val b) rest); cbn; [reflexivity|].
  destruct errors; reflexivity.
Qed.

(** A code point that is a Unicode scalar value: in range, no surrogate. *)
Lemma utf8_at_scalar (b : byte) (rest : bytes) (cp : Z) (n : nat) :
  utf8_at (byte_val b) rest = Decoded cp n ->
  0 <= cp <= 1114111 /\ ~ (55296 <= cp <= 57343).
Proof.
  pose proof (byte_val_range b) as Hb.
  unfold utf8_at, is_continuation. cbv zeta.
  repeat match goal with
         | |- context [?x <? ?y] => destruct (Z.ltb_spec x y)
         | |- context [?x <=? ?y] => destruct (Z.leb_spec x y)
         | |- context [?x >=? ?y] =>
             rewrite (Z.geb_leb x y); destruct (Z.leb_spec y x)
         | |- context [?x =? ?y] => destruct (Z.eqb_spec x y)
         | |- context [match ?l with [] => _ | _ :: _ => _ end] =>
             destruct l
         | _ => progress cbn [negb andb orb]
         end;
    intros Hstep; try discriminate Hstep;
    injection Hstep as <- _;
    repeat match goal with
           | x : byte |- _ => pose proof (byte_val_range x); revert x
           end; intros; lia.
Qed.

Lemma decode_response_text (size : Z) (data : bytes) (text : list Z) :
  utf8_decode Ignore data = Ok text ->
  decode_response RESP_DATA size data
  = Ok {| resp_type := RESP_DATA; resp_size := size;
          resp_data := TextData text size (b64encode data) |}.
Proof.
  intros Ht. unfold decode_response.
  change (existsb (Z.eqb RESP_DATA) _) with false.
  cbn [andb]. change (RESP_DATA =? RESP_PACKET) with false.
  change (RESP_DATA =? RESP_DATA) with true. cbv iota.
  rewrite Ht. reflexivity.
Qed.

Lemma utf8_decode_ascii (errors : error_mode) (data : bytes) :
  Forall ascii_byte data ->
  utf8_decode errors data = Ok (map byte_val data).
Proof.
  induction 1 as [|b data Hb _ IH]; [reflexivity|].
  rewrite utf8_decode_cons. unfold utf8_at.
  rewrite ltb_true by exact Hb. cbn [Nat.pred skipn].
  rewrite IH. reflexivity.
Qed.

(** X18: the text of a generic-data record whose payload is all ASCII is the
    payload itself, one character for each byte. *)
Theorem ascii_payload_text (size : Z) (data : bytes) :
  Forall ascii_byte data ->
  decode_response RESP_DATA size data
  = Ok {| resp_type := RESP_DATA; resp_size := size;
          resp_data := TextData (map byte_val data) size (b64encode data) |}.
Proof.
  intros H. apply decode_response_text. apply utf8_decode_ascii. exact H.
Qed.

Lemma ascii_payload_text_witness :
  Forall ascii_byte payload_get
  /\ decode_response RESP_DATA 5 payload_get
     = Ok {| resp_type := 7; resp_size := 5;
             resp_data := TextData [71; 69; 84; 32; 47] 5 "R0VUIC8=" |}.
Proof.
  assert (H : Forall ascii_byte payload_get)
    by (repeat constructor).
  split; [exact H|].
  rewrite (ascii_payload_text 5 payload_get H). reflexivity.
Defined.

Lemma utf8_decode_scalars (errors : error_mode) (s : bytes) (text : list Z) :
  utf8_decode errors s = Ok text ->
  Forall scalar_value text /\ (List.length text <= List.length s)%nat.
Proof.
  revert text. funelim (utf8_decode errors s); intros text Ht.
  - apply Ok_inj in Ht. subst text.
    split; [constructor|cbn [List.length]; lia].
  - destruct (utf8_decode errors (skipn (Nat.pred n) rest)) as [t|e] eqn:Hr;
      cbn [bind] in Ht; [|discriminate Ht].
    apply Ok_inj in Ht. subst text.
    destruct (H t eq_refl) as [Hall Hlen].
    rewrite length_skipn in Hlen.
    split; [|cbn [List.length]; lia].
    constructor; [|exact Hall].
    match goal with
    | E : utf8_at _ _ = Decoded _ _ |- _ => apply utf8_at_scalar in E; exact E
    end.
  - discriminate Ht.
  - destruct (H text Ht) as [Hall Hlen].
    rewrite length_skipn in Hlen.
    split; [exact Hall|cbn [List.length]; lia].
Qed.

(** X19: the text of a generic-data record has at most one code point for
    each byte of the payload, and each of them is a Unicode scalar value:
    at most 0x10FFFF and no surrogate. *)
Theorem text_is_scalar_values (size : Z) (data : bytes) :
  exists text,
    decode_response RESP_DATA size data
    = Ok {| resp_type := RESP_DATA; resp_size := size;
            resp_data := TextData text size (b64encode data) |}
    /\ Forall scalar_value text
    /\ len text <= len data.
Proof.
  destruct (utf8_decode_ignore Ignore data eq_refl) as [text Ht].
  exists text. split; [apply decode_response_text; exact Ht|].
  destruct (utf8_decode_scalars Ignore data text Ht) as [Hall Hlen].
  split; [exact Hall|]. unfold len. lia.
Qed.

Lemma utf8_strict_then_ignore (errors : error_mode) (s : bytes)
  (text : list Z) :
  errors = Strict ->
  utf8_decode errors s = Ok text -> utf8_decode Ignore s = Ok text.
Proof.
  revert text. funelim (utf8_decode errors s); intros text He Ht.
  - exact Ht.
  - rewrite utf8_decode_cons.
    match goal with E : utf8_at _ _ = Decoded _ _ |- _ => rewrite E end.
    destruct (utf8_decode errors (skipn (Nat.pred n) rest)) as [t|e] eqn:Hr;
      cbn [bind] in Ht; [|discriminate Ht].
    rewrite (H t He eq_refl). exact Ht.
  - discriminate Ht.
  - discriminate He.
Qed.

(** X20: when the payload of a generic-data record is well-formed UTF-8,
    the permissive decoding drops nothing: the text is the strict decoding
    of the payload. *)
Theorem well_formed_payload_text (size : Z) (data : bytes) (text : list Z) :
  utf8_decode Strict data = Ok text ->
  decode_response RESP_DATA size data
  = Ok {| resp_type := RESP_DATA; resp_size := size;
          resp_data := TextData text size (b64encode data) |}.
Proof.
  intros H. apply decode_response_text.
  apply (utf8_strict_then_ignore Strict data text eq_refl H).
Qed.

Lemma well_formed_payload_text_witness :
  utf8_decode Strict [xe2; x82; xac] = Ok [8364]
  /\ decode_response RESP_DATA 3 [xe2; x82; xac]
     = Ok {| resp_type := RESP_DATA; resp_size := 3;
             resp_data := TextData [8364] 3 (b64encode [xe2; x82; xac]) |}.
Proof.
  assert (H : utf8_decode Strict [xe2; x82; xac] = Ok [8364])
    by reflexivity.
  split; [exact H|].
  exact (well_formed_payload_text 3 [xe2; x82; xac] [8364] H).
Defined.

(** ** The base64 and hex fields *)

Lemma b64_char_in_alphabet (z : Z) :
  0 <= z < 64 -> In (b64_char z) b64_alphabet.
Proof.
  intros Hz. unfold b64_char. apply nth_In.
  change (List.length b64_alphabet) with 64%nat. lia.
Qed.

Lemma b64_text_char_ascii (c : ascii) :
  b64_text_char c -> (nat_of_ascii c < 128)%nat.
Proof.
  intros [Hin| ->]; [|vm_compute; lia].
  unfold b64_alphabet in Hin. cbn [list_ascii_of_string In] in Hin.
  repeat (destruct Hin as [<-|Hin]; [vm_compute; lia|]).
  contradiction.
Qed.

Lemma b64_digit_ok (z : Z) :
  0 <= z < 64 ->
  b64_text_char (b64_char z) /\ (nat_of_ascii (b64_char z) < 128)%nat.
Proof.
  intros Hz.
  assert (H : b64_text_char (b64_char z))
    by (left; apply b64_char_in_alphabet; exact Hz).
  split; [exact H|apply b64_text_char_ascii; exact H].
Qed.

Lemma b64_pad_ok :
  b64_text_char "="%char /\ (nat_of_ascii "="%char < 128)%nat.
Proof.
  split; [right; reflexivity|vm_compute; lia].
Qed.

Ltac b64_digit :=
  apply Forall_cons;
  [apply b64_digit_ok; Z.to_euclidean_division_equations; lia|].

Ltac b64_pad := apply Forall_cons; [exact b64_pad_ok|].

(** X21: the base64 text of a payload of [n] bytes has [4 * ceil (n / 3)]
    characters, each a base64 digit or the padding sign, all of them ASCII:
    the [decode('ascii')] applied to it cannot raise. *)
Theorem base64_field_is_ascii (bs : bytes) :
  String.length (b64encode bs) = (4 * ((List.length bs + 2) / 3))%nat
  /\ Forall (fun c => b64_text_char c /\ (nat_of_ascii c < 128)%nat)
       (list_ascii_of_string (b64encode bs)).
Proof.
  induction bs as [|a|a b|a b c rest [IHlen IHall]] using list_ind3.
  - split; [reflexivity|constructor].
  - split; [reflexivity|].
    pose proof (byte_val_range a).
    cbn [b64encode list_ascii_of_string]. cbv zeta.
    b64_digit. b64_digit. b64_pad. b64_pad. constructor.
  - split; [reflexivity|].
    pose proof (byte_val_range a). pose proof (byte_val_range b).
    cbn [b64encode list_ascii_of_string]. cbv zeta.
    b64_digit. b64_digit. b64_digit. b64_pad. constructor.
  - split.
    + cbn [b64encode String.length List.length]. cbv zeta.
      cbn [String.length]. rewrite IHlen.
      replace (S (S (S (List.length rest))) + 2)%nat
        with (List.length rest + 2 + 1 * 3)%nat by lia.
      rewrite Nat.div_add by discriminate. lia.
    + pose proof (byte_val_range a). pose proof (byte_val_range b).
      pose proof (byte_val_range c).
      cbn [b64encode list_ascii_of_string]. cbv zeta.
      b64_digit. b64_digit. b64_digit. b64_digit. exact IHall.
Qed.

Lemma hex_digit_inj (x y : Z) :
  0 <= x < 16 -> 0 <= y < 16 -> hex_digit x = hex_digit y -> x = y.
Proof.
  intros Hx Hy.
  assert (Ex : x = 0 \/ x = 1 \/ x = 2 \/ x = 3 \/ x = 4 \/ x = 5 \/ x = 6
               \/ x = 7 \/ x = 8 \/ x = 9 \/ x = 10 \/ x = 11 \/ x = 12
               \/ x = 13 \/ x = 14 \/ x = 15) by lia.
  assert (Ey : y = 0 \/ y = 1 \/ y = 2 \/ y = 3 \/ y = 4 \/ y = 5 \/ y = 6
               \/ y = 7 \/ y = 8 \/ y = 9 \/ y = 10 \/ y = 11 \/ y = 12
               \/ y = 13 \/ y = 14 \/ y = 15) by lia.
  repeat (destruct Ex as [->|Ex]); try subst x;
    repeat (destruct Ey as [->|Ey]); try subst y;
    vm_compute; intros H; try reflexivity; discriminate H.
Qed.

Lemma byte_val_inj (a b : byte) : byte_val a = byte_val b -> a = b.
Proof.
  intros H. rewrite <- (byte_of_Z_val a), <- (byte_of_Z_val b), H.
  reflexivity.
Qed.

(** X22: the hex text of a payload has two characters for each byte and
    determines the payload: two payloads with the same hex text are the
    same. *)
Theorem hex_field_is_lossless (a b : bytes) :
  String.length (hex a) = (2 * List.length a)%nat
  /\ (hex a = hex b -> a = b).
Proof.
  split; [apply hex_length|].
  revert b. induction a as [|x a IH]; intros [|y b] H;
    cbn [hex] in H; try discriminate H; [reflexivity|].
  injection H as H1 H2 H3.
  pose proof (byte_val_range x). pose proof (byte_val_range y).
  apply hex_digit_inj in H1;
    [|Z.to_euclidean_division_equations; lia
     |Z.to_euclidean_division_equations; lia].
  apply hex_digit_inj in H2;
    [|Z.to_euclidean_division_equations; lia
     |Z.to_euclidean_division_equations; lia].
  f_equal; [|apply IH; exact H3].
  apply byte_val_inj. Z.to_euclidean_division_equations. lia.
Qed.

(** * The updater of the test scripts *)

Example update_test_file_sample :
  update_test_file (codes "cat a.net b.network x.ne")
  = codes "cat a.json b.jsonwork x.ne".
Proof. reflexivity. Qed.

















(** * The validator of JSON results *)

Example valid_addresses :
  is_valid_ipv4 (codes "192.0.2.1") = true
  /\ is_valid_ipv4 (codes "192.0.2.01") = false
  /\ is_valid_ipv6 (codes "2001:db8::1") = true
  /\ is_valid_ipv6 (codes "::ffff:192.0.2.1") = true
  /\ is_valid_ipv6 (codes "1::2::3") = false.
Proof. repeat split. Qed.

Lemma codes_app (s1 s2 : string) :
  codes (s1 ++ s2) = (codes s1 ++ codes s2)%list.
Proof.
  unfold codes. induction s1 as [|c s1 IH]; [reflexivity|].
  cbn [String.append list_ascii_of_string map List.app]. rewrite IH.
  reflexivity.
Qed.

Lemma split_no_sep (sep : Z) (x : pystr) :
  existsb (Z.eqb sep) x = false -> split sep x = [x].
Proof.
  induction x as [|c x IH]; [reflexivity|].
  cbn [existsb split]. intros H. apply orb_false_iff in H as [Hc Hx].
  rewrite Z.eqb_sym, Hc, (IH Hx). reflexivity.
Qed.

Lemma split_at_sep (sep : Z) (x rest : pystr) :
  existsb (Z.eqb sep) x = false ->
  split sep (x ++ sep :: rest)%list = x :: split sep rest.
Proof.
  induction x as [|c x IH]; intros H.
  - cbn [List.app split]. rewrite Z.eqb_refl. reflexivity.
  - cbn [existsb] in H. apply orb_false_iff in H as [Hc Hx].
    cbn [List.app split]. rewrite Z.eqb_sym, Hc, (IH Hx). reflexivity.
Qed.

(** The decimal text of a byte is an octet the validator accepts. *)
Lemma byte_text_is_octet (b : byte) :
  let text := codes (dec (byte_val b)) in
  parse_octet text = Some (byte_val b)
  /\ existsb (Z.eqb 46) text = false
  /\ existsb (Z.eqb 47) text = false
  /\ existsb (Z.eqb 58) text = false
  /\ is_empty text = false.
Proof.
  destruct b; vm_compute; repeat split.
Qed.

Lemma dotted_is_valid_ipv4 (a b c d : byte) :
  is_valid_ipv4
    (codes (dotted (byte_val a) (byte_val b) (byte_val c) (byte_val d)))
  = true
  /\ existsb (Z.eqb 58)
       (codes (dotted (byte_val a) (byte_val b) (byte_val c) (byte_val d)))
     = false.
Proof.
  unfold dotted. rewrite !codes_app.
  change (codes ".") with [46].
  destruct (byte_text_is_octet a) as (Pa & Da & Sa & Ca & Ea).
  destruct (byte_text_is_octet b) as (Pb & Db & Sb & Cb & _).
  destruct (byte_text_is_octet c) as (Pc & Dc & Sc & Cc & _).
  destruct (byte_text_is_octet d) as (Pd & Dd & Sd & Cd & _).
  cbv zeta in *.
  set (ta := codes (dec (byte_val a))) in *.
  set (tb := codes (dec (byte_val b))) in *.
  set (tc := codes (dec (byte_val c))) in *.
  set (td := codes (dec (byte_val d))) in *.
  split.
  - unfold is_valid_ipv4, IPv4Address.
    rewrite !existsb_app. cbn [existsb]. rewrite Sa, Sb, Sc, Sd.
    cbn [Z.eqb Pos.eqb orb]. unfold v4_ip_int_from_string.
    replace (is_empty (ta ++ [46] ++ tb ++ [46] ++ tc ++ [46] ++ td)%list)
      with false by (destruct ta; [discriminate Ea|reflexivity]).
    cbn [List.app].
    rewrite (split_at_sep 46 ta) by exact Da.
    rewrite (split_at_sep 46 tb) by exact Db.
    rewrite (split_at_sep 46 tc) by exact Dc.
    rewrite (split_no_sep 46 td) by exact Dd.
    cbv zeta. cbn [len List.length Z.of_nat Pos.of_succ_nat Pos.succ Z.eqb
                   Pos.eqb negb map].
    rewrite Pa, Pb, Pc, Pd. reflexivity.
  - rewrite !existsb_app. cbn [existsb]. rewrite Ca, Cb, Cc, Cd. reflexivity.
Qed.

Lemma partition_before (c sep : Z) (s : pystr) :
  existsb (Z.eqb c) s = false ->
  existsb (Z.eqb c) (fst (partition sep s)) = false.
Proof.
  induction s as [|x s IH]; [reflexivity|].
  cbn [existsb partition]. intros H. apply orb_false_iff in H as [Hx Hs].
  destruct (x =? sep); [reflexivity|].
  destruct (partition sep s) as [before after]. cbn [fst existsb] in *.
  rewrite Hx, (IH Hs). reflexivity.
Qed.

(** A text without a colon is no IPv6 address. *)
Lemma no_colon_invalid_ipv6 (addr : pystr) :
  existsb (Z.eqb 58) addr = false -> is_valid_ipv6 addr = false.
Proof.
  intros H. unfold is_valid_ipv6, IPv6Address.
  destruct (existsb (Z.eqb 47) addr); [reflexivity|].
  pose proof (partition_before 58 37 addr H) as Hb.
  unfold split_scope_id.
  destruct (partition 37 addr) as [before [scope_id|]]; cbn [fst] in Hb.
  - destruct (is_empty scope_id || existsb (Z.eqb 37) scope_id);
      [reflexivity|].
    unfold v6_ip_int_from_string.
    destruct (is_empty before); [reflexivity|].
    rewrite (split_no_sep 58 before Hb). reflexivity.
  - unfold v6_ip_int_from_string.
    destruct (is_empty before); [reflexivity|].
    rewrite (split_no_sep 58 before Hb). reflexivity.
Qed.

Lemma split_not_nil (sep : Z) (s : pystr) : split sep s <> [].
Proof.
  destruct s as [|c s]; [discriminate|].
  cbn [split]. destruct (c =? sep); [discriminate|].
  destruct (split sep s); discriminate.
Qed.

Lemma split_chars (P : Z -> bool) (sep : Z) (s : pystr) :
  Forall (fun part => forallb P part = true) (split sep s) ->
  forallb (fun c => (c =? sep) || P c) s = true.
Proof.
  induction s as [|c s IH]; [reflexivity|].
  cbn [split forallb]. destruct (c =? sep) eqn:Hc.
  - intros H. inversion H; subst. cbn [orb andb]. apply IH. assumption.
  - pose proof (split_not_nil sep s) as Hn.
    destruct (split sep s) as [|part parts]; [contradiction|].
    intros H. inversion H as [|x l Hpart Hparts]; subst.
    cbn [forallb] in Hpart. apply andb_prop in Hpart as [Hpc Hp].
    rewrite Hpc. cbn [orb andb]. apply IH. constructor; assumption.
Qed.

Lemma parse_octet_digits (part : pystr) (v : Z) :
  parse_octet part = Some v -> forallb is_ascii_digit part = true.
Proof.
  unfold parse_octet.
  destruct (is_empty part); [discriminate|].
  destruct (forallb is_ascii_digit part); [reflexivity|discriminate].
Qed.

(** A valid IPv4 text is made of digits and full stops. *)
Lemma valid_ipv4_chars (addr : pystr) :
  is_valid_ipv4 addr = true ->
  forallb (fun c => (c =? 46) || is_ascii_digit c) addr = true.
Proof.
  unfold is_valid_ipv4, IPv4Address.
  destruct (existsb (Z.eqb 47) addr); [discriminate|].
  unfold v4_ip_int_from_string.
  destruct (is_empty addr); [discriminate|]. cbv zeta.
  destruct (negb (len (split 46 addr) =? 4)); [discriminate|].
  intros H. apply split_chars.
  destruct (split 46 addr) as [|p1 [|p2 [|p3 [|p4 [|p5 rest]]]]];
    cbn [map] in H; try discriminate H.
  - destruct (parse_octet p1); discriminate H.
  - destruct (parse_octet p1), (parse_octet p2); discriminate H.
  - destruct (parse_octet p1), (parse_octet p2), (parse_octet p3);
      discriminate H.
  - destruct (parse_octet p1) eqn:H1, (parse_octet p2) eqn:H2,
      (parse_octet p3) eqn:H3, (parse_octet p4) eqn:H4; try discriminate H.
    repeat constructor; eapply parse_octet_digits; eassumption.
  - destruct (parse_octet p1), (parse_octet p2), (parse_octet p3),
      (parse_octet p4), (parse_octet p5); discriminate H.
Qed.

Lemma digits_and_stops_no_colon (addr : pystr) :
  forallb (fun c => (c =? 46) || is_ascii_digit c) addr = true ->
  existsb (Z.eqb 58) addr = false.
Proof.
  induction addr as [|c addr IH]; [reflexivity|].
  cbn [forallb existsb]. intros H. apply andb_prop in H as [Hc Haddr].
  rewrite (IH Haddr), orb_false_r.
  destruct (Z.eqb_spec 58 c) as [<-|]; [discriminate Hc|reflexivity].
Qed.

(** X26: no text is valid for both families: what [is_valid_ipv4] accepts,
    [is_valid_ipv6] rejects. *)
Theorem valid_ipv4_is_not_ipv6 (addr : pystr) :
  is_valid_ipv4 addr = true -> is_valid_ipv6 addr = false.
Proof.
  intros H. apply no_colon_invalid_ipv6, digits_and_stops_no_colon,
    valid_ipv4_chars. exact H.
Qed.

Lemma valid_ipv4_is_not_ipv6_witness :
  is_valid_ipv4 (codes "192.0.2.1") = true
  /\ is_valid_ipv6 (codes "192.0.2.1") = false.
Proof.
  assert (H : is_valid_ipv4 (codes "192.0.2.1") = true) by reflexivity.
  split; [exact H|]. exact (valid_ipv4_is_not_ipv6 (codes "192.0.2.1") H).
Defined.

(** X27: [validate_address_family] returns no error exactly when the family
    is 4 or 6 and each address that is not empty is valid for that family;
    an empty address is never checked.  It returns at most two errors. *)
Theorem no_error_iff_addresses_fit (af : Z) (dst_addr src_addr : pystr) :
  (validate_address_family af dst_addr src_addr = []
   <-> (af = 4
        /\ (dst_addr = [] \/ is_valid_ipv4 dst_addr = true)
        /\ (src_addr = [] \/ is_valid_ipv4 src_addr = true))
       \/ (af = 6
           /\ (dst_addr = [] \/ is_valid_ipv6 dst_addr = true)
           /\ (src_addr = [] \/ is_valid_ipv6 src_addr = true)))
  /\ len (validate_address_family af dst_addr src_addr) <= 2.
Proof.
  unfold validate_address_family.
  destruct (Z.eqb_spec af 4) as [->|H4];
    [|destruct (Z.eqb_spec af 6) as [->|H6]].
  - destruct dst_addr as [|d dst], src_addr as [|s src];
      cbn [is_empty negb andb];
      try destruct (is_valid_ipv4 (d :: dst));
      try destruct (is_valid_ipv4 (s :: src));
      cbn [negb List.app];
      (split; [|cbv; discriminate]);
      (split;
       [intros H; try discriminate H; left; repeat split; auto
       |intros [(_ & [Hd|Hd] & [Hs|Hs])|(Haf & _)];
        try discriminate; reflexivity]).
  - destruct dst_addr as [|d dst], src_addr as [|s src];
      cbn [is_empty negb andb];
      try destruct (is_valid_ipv6 (d :: dst));
      try destruct (is_valid_ipv6 (s :: src));
      cbn [negb List.app];
      (split; [|cbv; discriminate]);
      (split;
       [intros H; try discriminate H; right; repeat split; auto
       |intros [(Haf & _)|(_ & [Hd|Hd] & [Hs|Hs])];
        try discriminate; reflexivity]).
  - split; [|cbv; discriminate].
    split; [discriminate|].
    intros [(Haf & _)|(Haf & _)]; contradiction.
Qed.

Lemma valid_pair_has_no_error (text : pystr) :
  is_valid_ipv4 text = true -> validate_address_family 4 text text = [].
Proof.
  intros H. unfold validate_address_family. cbn [Z.eqb Pos.eqb].
  rewrite H. cbn [negb]. rewrite andb_false_r. reflexivity.
Qed.

(** X28: the converter and the validator agree on IPv4: every address text
    that [parse_sockaddr] returns with the family AF_INET is a valid IPv4
    address for the validator, so a result with [af] 4 that carries it as
    both addresses has no error. *)
Theorem decoded_inet_address_validates
  (data : bytes) (family : Z) (r : SockAddr) (text : string) :
  parse_sockaddr data family = Ok (Some r) ->
  sa_family r = "AF_INET" ->
  sa_address r = Some text ->
  is_valid_ipv4 (codes text) = true
  /\ validate_address_family 4 (codes text) (codes text) = [].
Proof.
  intros Hr Hfam Haddr.
  assert (Hv : is_valid_ipv4 (codes text) = true).
  { revert Hr. unfold parse_sockaddr.
    destruct (Z.eq_dec family 0) as [->|H0].
    { destruct (Z_lt_le_dec (len data) 12) as [Hs|Hl].
      - rewrite parse_family0_short by exact Hs. discriminate.
      - rewrite parse_family0_long by exact Hl. cbn [bind].
        intros Hr. apply Ok_inj in Hr. injection Hr as Hr. subst r.
        cbn [sa_address] in Haddr. cbv zeta in Haddr.
        destruct (String.eqb _ "0.0.0.0"); [discriminate Haddr|].
        injection Haddr as <-. apply dotted_is_valid_ipv4. }
    rewrite parse_family0_other by exact H0. cbn [bind].
    destruct (Z.eq_dec family AF_INET) as [->|H2].
    { destruct (Z_lt_le_dec (len data) 8) as [Hs|Hl].
      - unfold parse_by_family. cbn [AF_INET Z.eqb Pos.eqb].
        rewrite ltb_true by exact Hs. discriminate.
      - rewrite parse_by_family_inet by exact Hl.
        intros Hr. apply Ok_inj in Hr. injection Hr as Hr. subst r.
        cbn [sa_address] in Haddr. injection Haddr as <-.
        apply dotted_is_valid_ipv4. }
    destruct (Z.eq_dec family AF_INET6) as [H10|H10];
      [|destruct (Z.eq_dec family AF_INET6_LOCAL) as [H28|H28]].
    3: { rewrite parse_by_family_unknown by assumption. discriminate. }
    all: assert (Hf : family = AF_INET6 \/ family = AF_INET6_LOCAL) by auto.
    all: destruct (Z_lt_le_dec (len data) 24) as [Hs|Hl];
      [rewrite parse_by_family_inet6_short by assumption; discriminate|].
    all: destruct (parse_by_family_inet6 data family Hf Hl)
      as (t6 & _ & ->).
    all: intros Hr; apply Ok_inj in Hr; injection Hr as Hr; subst r.
    all: cbn [sa_family] in Hfam; discriminate Hfam. }
  split; [exact Hv|apply valid_pair_has_no_error; exact Hv].
Qed.

Lemma decoded_inet_address_validates_witness :
  parse_sockaddr inet_example AF_INET
  = Ok (Some {| sa_family := "AF_INET"; sa_address := Some "93.184.216.34";
                sa_port := 80; sa_flowinfo := None; sa_scope_id := None |})
  /\ is_valid_ipv4 (codes "93.184.216.34") = true
  /\ validate_address_family 4 (codes "93.184.216.34")
       (codes "93.184.216.34") = [].
Proof.
  assert (H : parse_sockaddr inet_example AF_INET
              = Ok (Some {| sa_family := "AF_INET";
                            sa_address := Some "93.184.216.34";
                            sa_port := 80; sa_flowinfo := None;
                            sa_scope_id := None |})) by reflexivity.
  split; [exact H|].
  exact (decoded_inet_address_validates inet_example AF_INET _
           "93.184.216.34" H eq_refl eq_refl).
Defined.
